(** * Data-Cleaning-Lab-I: the two data preparation pipelines

    A shallow embedding of [college_train_test] and [job_train_test]
    (file2.py).  Both functions are straight-line compositions of pandas
    and scikit-learn calls, so the embedding has two layers:

    - the library calls the script makes ([pd.to_numeric], [dropna],
      [median], [drop], [SimpleImputer], [StandardScaler], [OneHotEncoder],
      [ColumnTransformer], [train_test_split]) written out as functions on
      an explicit data-frame type, with the exceptions they raise;
    - the two pipelines, statement by statement, on top of them.

    Numbers are rationals: a binary64 value that is neither NaN nor
    infinite is a rational, NaN is [None], and rounding is not modelled;
    a frame holds no infinite value.
    What the libraries leave to their environment is a parameter of the
    development: the text-to-float conversion, the square root, the
    pseudo-random index draw of the stratified splitter, and the iteration
    order of a Python [set]. *)

From Stdlib Require Import String Ascii List ZArith QArith Qround Bool Lia Arith.
From Stdlib Require Import Sorted Lqa.
Import ListNotations.

Local Open Scope string_scope.
Local Open Scope nat_scope.

(** ** Exceptions *)

(** The Python exception classes that the pipelines can raise, and
    [AttributeError], which the specification names. *)
Inductive exn : Type :=
| KeyError (key : string)
| ValueError (msg : string)
| TypeError (msg : string)
| IndexError (msg : string)
| AttributeError (msg : string).

Inductive result (A : Type) : Type :=
| Ok (a : A)
| Raise (e : exn).

Arguments Ok {A} a.
Arguments Raise {A} e.

Definition bind {A B : Type} (c : result A) (k : A -> result B) : result B :=
  match c with
  | Ok a => k a
  | Raise e => Raise e
  end.

Notation "x <- c ;; k" := (bind c (fun x => k))
  (at level 61, c at next level, right associativity).

Definition is_AttributeError (e : exn) : bool :=
  match e with AttributeError _ => true | _ => false end.

Definition is_KeyError (e : exn) : bool :=
  match e with KeyError _ => true | _ => false end.

Definition succeeds {A : Type} (c : result A) : bool :=
  match c with Ok _ => true | Raise _ => false end.

(** ** Data frames *)

(** A pandas column as [read_csv] produces it: a numeric dtype (int64,
    float64, bool) with NaN for a missing cell, or the object dtype holding
    text with NaN for a missing cell. *)
Inductive series : Type :=
| Numeric (xs : list (option Q))
| Object (xs : list (option string)).

Record DataFrame : Type := mkDataFrame {
  n_rows : nat;
  cols : list (string * series)
}.

Definition columns (df : DataFrame) : list string := map fst (cols df).

Definition in_columns (c : string) (df : DataFrame) : bool :=
  existsb (String.eqb c) (columns df).

Definition mem (c : string) (l : list string) : bool :=
  existsb (String.eqb c) l.

Fixpoint lookup (c : string) (l : list (string * series)) : option series :=
  match l with
  | [] => None
  | (k, s) :: t => if String.eqb c k then Some s else lookup c t
  end.

(** [df[c]] *)
Definition getitem (df : DataFrame) (c : string) : result series :=
  match lookup c (cols df) with
  | Some s => Ok s
  | None => Raise (KeyError c)
  end.

Fixpoint assign (c : string) (s : series) (l : list (string * series))
  : list (string * series) :=
  match l with
  | [] => [(c, s)]
  | (k, v) :: t => if String.eqb c k then (k, s) :: t else (k, v) :: assign c s t
  end.

(** [df[c] = s]: an existing column is replaced in place, a new one is
    appended. *)
Definition setitem (df : DataFrame) (c : string) (s : series) : DataFrame :=
  mkDataFrame (n_rows df) (assign c s (cols df)).

Definition is_numeric_dtype (s : series) : bool :=
  match s with Numeric _ => true | Object _ => false end.

Definition is_some {A : Type} (o : option A) : bool :=
  match o with Some _ => true | None => false end.

Definition notna (s : series) : list bool :=
  match s with
  | Numeric xs => map is_some xs
  | Object xs => map is_some xs
  end.

Fixpoint keep {A : Type} (mask : list bool) (xs : list A) : list A :=
  match mask, xs with
  | b :: m, x :: t => if b then x :: keep m t else keep m t
  | _, _ => []
  end.

Definition keep_series (mask : list bool) (s : series) : series :=
  match s with
  | Numeric xs => Numeric (keep mask xs)
  | Object xs => Object (keep mask xs)
  end.

Definition count_true (mask : list bool) : nat :=
  length (filter (fun b => b) mask).

(** [df.dropna(subset=[c])] *)
Definition dropna (df : DataFrame) (c : string) : result DataFrame :=
  s <- getitem df c ;;
  let mask := notna s in
  Ok (mkDataFrame (count_true mask)
        (map (fun kv => (fst kv, keep_series mask (snd kv))) (cols df))).

Inductive errors_mode : Type := errors_raise | errors_ignore.

(** [df.drop(columns=labels, errors=mode)] *)
Definition drop (df : DataFrame) (labels : list string) (mode : errors_mode)
  : result DataFrame :=
  let removed :=
    mkDataFrame (n_rows df)
      (filter (fun kv => negb (mem (fst kv) labels)) (cols df)) in
  match mode with
  | errors_ignore => Ok removed
  | errors_raise =>
      match find (fun c => negb (in_columns c df)) labels with
      | Some c => Raise (KeyError c)
      | None => Ok removed
      end
  end.

(** [df.iloc[idx]]: positional row selection. *)
Definition take_series (idx : list nat) (s : series) : series :=
  match s with
  | Numeric xs => Numeric (map (fun i => nth i xs None) idx)
  | Object xs => Object (map (fun i => nth i xs None) idx)
  end.

Definition iloc (df : DataFrame) (idx : list nat) : result DataFrame :=
  if forallb (fun i => i <? n_rows df) idx
  then Ok (mkDataFrame (length idx)
             (map (fun kv => (fst kv, take_series idx (snd kv))) (cols df)))
  else Raise (IndexError "positional indexers are out-of-bounds").

Definition iloc_values {A : Type} (xs : list (option A)) (idx : list nat)
  : list (option A) :=
  map (fun i => nth i xs None) idx.

(** ** Numeric helpers *)

Fixpoint insert_sorted (x : Q) (l : list Q) : list Q :=
  match l with
  | [] => [x]
  | y :: t => if Qle_bool x y then x :: l else y :: insert_sorted x t
  end.

Definition sort_values (l : list Q) : list Q := fold_right insert_sorted [] l.

Fixpoint observed {A : Type} (xs : list (option A)) : list A :=
  match xs with
  | [] => []
  | Some x :: t => x :: observed t
  | None :: t => observed t
  end.

(** The median of the observed values; NaN ([None]) when there is none.
    An even count averages the two middle values. *)
Definition median (xs : list (option Q)) : option Q :=
  let s := sort_values (observed xs) in
  let n := length s in
  if n =? 0 then None
  else if Nat.even n
       then Some ((nth (n / 2 - 1) s 0%Q + nth (n / 2) s 0%Q) / 2)%Q
       else Some (nth (n / 2) s 0%Q).

(** [Series.median()] *)
Definition series_median (s : series) : result (option Q) :=
  match s with
  | Numeric xs => Ok (median xs)
  | Object _ => Raise (TypeError "could not convert string to float")
  end.

(** [value > cutoff] on floats: false as soon as one side is NaN. *)
Definition gt (v cutoff : option Q) : bool :=
  match v, cutoff with
  | Some x, Some m => negb (Qle_bool x m)
  | _, _ => false
  end.

(** [series > cutoff] *)
Definition series_gt (s : series) (cutoff : option Q) : result (list bool) :=
  match s with
  | Numeric xs => Ok (map (fun v => gt v cutoff) xs)
  | Object _ => Raise (TypeError "'>' not supported between 'str' and 'float'")
  end.

(** [mask.astype(int)] *)
Definition astype_int (mask : list bool) : series :=
  Numeric (map (fun b : bool => Some (if b then 1%Q else 0%Q)) mask).

(** [str.lower()] on the ASCII letters; the other bytes of a UTF-8 name
    are left as they are. *)
Definition lower_ascii (a : ascii) : ascii :=
  let n := nat_of_ascii a in
  if (65 <=? n) && (n <=? 90) then ascii_of_nat (n + 32) else a.

Fixpoint lower (s : string) : string :=
  match s with
  | EmptyString => EmptyString
  | String a t => String (lower_ascii a) (lower t)
  end.

(** ** scikit-learn estimators *)

(** Matrices handed to and returned by the estimators hold floats: a cell
    is [Some q] for a finite value and [None] for NaN or an infinity. *)
Definition float : Type := option Q.

(** Float division: dividing by zero raises nothing in numpy, it yields a
    non-finite cell. *)
Definition fdiv (a b : Q) : float :=
  if Qeq_bool b 0 then None else Some (a / b)%Q.

Definition map2 {A B C : Type} (f : A -> B -> C) (l : list A) (l' : list B)
  : list C :=
  map (fun p => f (fst p) (snd p)) (combine l l').

(** [check_array]: every estimator refuses an input without rows or without
    columns.  [X] is held column by column. *)
Definition check_array {A : Type} (n_samples : nat) (X : list (list A))
  : result unit :=
  if n_samples =? 0
  then Raise (ValueError "Found array with 0 sample(s) while a minimum of 1 is required.")
  else if length X =? 0
  then Raise (ValueError "Found array with 0 feature(s) while a minimum of 1 is required.")
  else Ok tt.

(** *** SimpleImputer *)

Definition fill {A : Type} (v : A) (xs : list (option A)) : list A :=
  map (fun o => match o with Some x => x | None => v end) xs.

(** [SimpleImputer.transform]: a column whose fit-time statistic is NaN
    (no observed value at fit) is discarded; in the others the missing
    cells take the statistic. *)
Fixpoint imputer_transform {A : Type} (statistics : list (option A))
  (X : list (list (option A))) : list (list A) :=
  match statistics, X with
  | Some v :: st, x :: t => fill v x :: imputer_transform st t
  | None :: st, _ :: t => imputer_transform st t
  | _, _ => []
  end.

Definition count_eq (v : string) (l : list string) : nat :=
  length (filter (String.eqb v) l).

(** [strategy="most_frequent"]: the most frequent observed value, the
    smallest one when several tie. *)
Definition most_frequent (xs : list (option string)) : option string :=
  let vals := observed xs in
  fold_left
    (fun best v =>
       match best with
       | None => Some v
       | Some b =>
           let cb := count_eq b vals in
           let cv := count_eq v vals in
           if (cb <? cv) || ((cb =? cv) && String.ltb v b)
           then Some v else Some b
       end)
    vals None.

(** *** StandardScaler *)

Definition Qsum (xs : list Q) : Q := fold_right Qplus 0%Q xs.

Definition mean (xs : list Q) : Q :=
  (Qsum xs / inject_Z (Z.of_nat (length xs)))%Q.

(** Population variance, as [np.var] computes it. *)
Definition variance (xs : list Q) : Q :=
  let m := mean xs in
  mean (map (fun x => ((x - m) * (x - m))%Q) xs).

(** [_handle_zeros_in_scale]: a zero scale is replaced by 1. *)
Definition handle_zeros_in_scale (s : Q) : Q :=
  if Qeq_bool s 0 then 1%Q else s.

Record scaler : Type := mkScaler { mean_ : Q; scale_ : Q }.

Definition scaler_transform (p : scaler) (x : list Q) : list float :=
  map (fun v => fdiv (v - mean_ p) (scale_ p)) x.

(** *** OneHotEncoder *)

Fixpoint insert_category (v : string) (l : list string) : list string :=
  match l with
  | [] => [v]
  | c :: t =>
      if String.eqb v c then l
      else if String.ltb v c then v :: l
      else c :: insert_category v t
  end.

(** [categories_]: the distinct values of the fitted column, sorted. *)
Definition categories (x : list string) : list string :=
  fold_right insert_category [] x.

Inductive handle_unknown : Type := unknown_error | unknown_ignore.

Definition indicator (cats : list string) (v : string) : list float :=
  map (fun c => if String.eqb v c then Some 1%Q else Some 0%Q) cats.

(** One cell encoded against the fit-time categories. *)
Definition onehot_cell (mode : handle_unknown) (cats : list string) (v : string)
  : result (list float) :=
  if mem v cats then Ok (indicator cats v)
  else match mode with
       | unknown_ignore => Ok (map (fun _ => Some 0%Q) cats)
       | unknown_error =>
           Raise (ValueError ("Found unknown categories [" ++ v ++ "] during transform"))
       end.

Fixpoint mapM {A B : Type} (f : A -> result B) (l : list A) : result (list B) :=
  match l with
  | [] => Ok []
  | a :: t => b <- f a ;; r <- mapM f t ;; Ok (b :: r)
  end.

(** One column encoded: a block with one row per sample. *)
Definition onehot_column (mode : handle_unknown) (cats : list string)
  (x : list string) : result (list (list float)) :=
  mapM (onehot_cell mode cats) x.

(** Blocks put side by side, [n] rows each. *)
Definition hstack (n : nat) (blocks : list (list (list float)))
  : list (list float) :=
  fold_right (fun b acc => map2 (@app float) b acc) (repeat [] n) blocks.

Definition column_block (x : list float) : list (list float) :=
  map (fun v => [v]) x.

(** ** The pipelines *)

(** What Python leaves to the process the script runs in: the iteration
    order of a [set] of strings (it follows the hash seed of the process)
    and the state of numpy's global generator. *)
Record process (RandomState : Type) : Type := mkProcess {
  set_order : list string -> list string;
  np_random : RandomState
}.

Arguments set_order {RandomState} p l.
Arguments np_random {RandomState} p.

(** What a pipeline returns: the two prepared matrices, row by row, and
    the two label vectors. *)
Record prepared : Type := mkPrepared {
  X_train_prep : list (list float);
  X_test_prep : list (list float);
  y_train : list float;
  y_test : list float
}.

(** ** A concrete environment and sample frames *)

(** Decimal integers such as ["42"]; any other text is not a number. *)
Fixpoint parse_digits (s : string) (acc : Z) : option Z :=
  match s with
  | EmptyString => Some acc
  | String a t =>
      let n := nat_of_ascii a in
      if (48 <=? n) && (n <=? 57)
      then parse_digits t (10 * acc + Z.of_nat (n - 48))%Z
      else None
  end.

Definition sample_parse_float (s : string) : option Q :=
  match s with
  | EmptyString => None
  | _ => option_map inject_Z (parse_digits s 0%Z)
  end.

(** The square root rounded down to a multiple of the denominator's unit. *)
Definition sample_sqrt (q : Q) : Q :=
  Qmake (Z.sqrt (Qnum q * Zpos (Qden q))) (Qden q).

(** A draw that rotates the row numbers by the state. *)
Definition sample_indices (state : Z) (y : list float) (n_train n_test : nat)
  : list nat * list nat :=
  let n := length y in
  let rot := map (fun i => (i + Z.to_nat state) mod n) (seq 0 n) in
  (firstn n_train rot, firstn n_test (skipn n_train rot)).

Definition sample_process : process Z := mkProcess Z (nodup string_dec) 0%Z.

Definition reversed_process : process Z :=
  mkProcess Z (fun l => rev (nodup string_dec l)) 7%Z.

Definition college_sample : DataFrame :=
  mkDataFrame 6
    [ ("unitid", Numeric [Some 1; Some 2; Some 3; Some 4; Some 5; Some 6]%Q);
      ("control", Object [Some "Public"; Some "Private"; None;
                          Some "Public"; Some "Public"; Some "Private"]);
      ("student_count", Numeric [Some 10; Some 20; None; Some 40; Some 50; Some 60]%Q);
      ("grad_150_value", Object [Some "30"; Some "50"; Some "n/a";
                                 Some "50"; Some "70"; Some "90"]) ].

(** The train and test matrices and labels of [college_sample] for
    [test_size = 1/2] and seed 42 in the sample environment. *)
Definition college_sample_result : prepared :=
  mkPrepared
    [[Some (-320 # 320); Some 1]; [Some (320 # 320); Some 1]]%Q
    [[Some (960 # 320); Some 0]; [Some (-2240 # 320); Some 1];
     [Some (-1600 # 320); Some 0]]%Q
    [Some 0; Some 1]%Q
    [Some 1; Some 0; Some 0]%Q.

(** A college frame without its outcome column. *)
Definition college_without_outcome : DataFrame :=
  mkDataFrame 2
    [ ("unitid", Numeric [Some 1; Some 2]%Q);
      ("control", Object [Some "Public"; Some "Private"]) ].

(** A college frame where every institution has the same outcome, so
    that no outcome is above the median and one class is derived. *)
Definition college_constant : DataFrame :=
  mkDataFrame 4
    [ ("control", Object [Some "Public"; Some "Private";
                          Some "Public"; Some "Private"]);
      ("student_count", Numeric [Some 10; Some 20; Some 30; Some 40]%Q);
      ("grad_150_value", Numeric [Some 50; Some 50; Some 50; Some 50]%Q) ].

(** A college frame where a single institution is above the median. *)
Definition college_skewed : DataFrame :=
  mkDataFrame 4
    [ ("student_count", Numeric [Some 10; Some 20; Some 30; Some 40]%Q);
      ("grad_150_value", Numeric [Some 1; Some 1; Some 1; Some 5]%Q) ].

Definition job_sample : DataFrame :=
  mkDataFrame 6
    [ ("gender", Object [Some "M"; Some "F"; Some "M"; Some "F"; Some "M"; Some "F"]);
      ("ssc_p", Numeric [Some 67; Some 79; Some 65; Some 56; Some 85; Some 55]%Q);
      ("Status", Object [Some "Placed"; Some "Placed"; Some "Placed";
                         Some "Not Placed"; Some "Placed"; Some "Placed"]);
      ("placement_status", Object [Some "on"; Some "on"; Some "off";
                                   Some "off"; Some "on"; Some "off"]);
      ("salary", Numeric [Some 270000; Some 200000; Some 250000; None;
                          Some 425000; Some 200000]%Q) ].

(** A college frame where no outcome reads as a number. *)
Definition college_unknown_outcomes : DataFrame :=
  mkDataFrame 3
    [ ("student_count", Numeric [Some 10; Some 20; Some 30]%Q);
      ("grad_150_value", Object [Some "n/a"; None; Some "unknown"]) ].

(** A job frame whose salary column carries the name of the label. *)
Definition job_salary_as_label : DataFrame :=
  mkDataFrame 4
    [ ("ssc_p", Numeric [Some 67; Some 79; Some 65; Some 56]%Q);
      ("above_median_salary", Numeric [Some 1; Some 2; Some 3; Some 4]%Q) ].

(** [college_sample] with other identifiers and other outcome values: the
    outcome is known on the same rows and is above its median on the same
    rows. *)
Definition college_sample_reidentified : DataFrame :=
  mkDataFrame 6
    [ ("unitid", Numeric [Some 11; Some 12; Some 13; Some 14; Some 15; Some 16]%Q);
      ("control", Object [Some "Public"; Some "Private"; None;
                          Some "Public"; Some "Public"; Some "Private"]);
      ("student_count", Numeric [Some 10; Some 20; None; Some 40; Some 50; Some 60]%Q);
      ("grad_150_value", Numeric [Some 31; Some 51; None;
                                  Some 51; Some 71; Some 91]%Q) ].

(** ** The model *)

Section Pipelines.

(** [float(text)] as [pd.to_numeric] applies it to a cell of text. *)
Variable parse_float : string -> option Q.

(** [np.sqrt] *)
Variable np_sqrt : Q -> Q.

(** numpy's generator: its states, the state a seed gives, and the index
    draw of [StratifiedShuffleSplit] from a state, the labels and the two
    partition sizes. *)
Variable RandomState : Type.
Variable seeded : Z -> RandomState.
Variable stratified_indices :
  RandomState -> list float -> nat -> nat -> list nat * list nat.

(** [pd.to_numeric(s, errors="coerce")]: a cell of text that is not a
    number becomes NaN. *)
Definition coerce_cells (s : series) : list (option Q) :=
  match s with
  | Numeric xs => xs
  | Object xs =>
      map (fun o => match o with
                    | Some t => parse_float t
                    | None => None
                    end) xs
  end.

Definition to_numeric (s : series) : series := Numeric (coerce_cells s).

(** [StandardScaler.fit] on one column. *)
Definition scaler_fit (x : list Q) : scaler :=
  mkScaler (mean x) (handle_zeros_in_scale (np_sqrt (variance x))).

(** *** The preprocessor *)

(** The columns a transformer of the [ColumnTransformer] is given. *)
Definition numeric_values (s : series) : result (list (option Q)) :=
  match s with
  | Numeric xs => Ok xs
  | Object _ =>
      Raise (ValueError "Cannot use median strategy with non-numeric data")
  end.

(** [cat_cols] holds the columns that are not numeric, so the numeric case
    is not reached by the pipelines. *)
Definition object_values (s : series) : result (list (option string)) :=
  match s with
  | Object xs => Ok xs
  | Numeric _ => Raise (TypeError "numeric column among the categorical ones")
  end.

Definition select {A : Type} (values : series -> result A)
  (X : DataFrame) (names : list string) : result (list A) :=
  mapM (fun c => s <- getitem X c ;; values s) names.

(** The fitted state of the preprocessor: per numeric column the imputation
    median and the scaler, per categorical column the imputation mode and
    the categories. *)
Record fitted : Type := mkFitted {
  num_statistics : list (option Q);
  num_scalers : list scaler;
  cat_statistics : list (option string);
  cat_categories : list (list string)
}.

(** The ["num"] pipeline: median imputer, then scaler. *)
Definition num_fit (n : nat) (X : list (list (option Q)))
  : result (list (option Q) * list scaler) :=
  match X with
  | [] => Ok ([], [])
  | _ =>
      _ <- check_array n X ;;
      let statistics := map median X in
      let Xi := imputer_transform statistics X in
      _ <- check_array n Xi ;;
      Ok (statistics, map scaler_fit Xi)
  end.

Definition num_transform (n : nat) (statistics : list (option Q))
  (scalers : list scaler) (X : list (list (option Q)))
  : result (list (list float)) :=
  match X with
  | [] => Ok (hstack n [])
  | _ =>
      _ <- check_array n X ;;
      let Xi := imputer_transform statistics X in
      _ <- check_array n Xi ;;
      Ok (hstack n (map column_block (map2 scaler_transform scalers Xi)))
  end.

(** The ["cat"] pipeline: most-frequent imputer, then one-hot encoder. *)
Definition cat_fit (n : nat) (X : list (list (option string)))
  : result (list (option string) * list (list string)) :=
  match X with
  | [] => Ok ([], [])
  | _ =>
      _ <- check_array n X ;;
      let statistics := map most_frequent X in
      let Xi := imputer_transform statistics X in
      _ <- check_array n Xi ;;
      Ok (statistics, map categories Xi)
  end.

Fixpoint onehot_transform (mode : handle_unknown) (cats : list (list string))
  (X : list (list string)) : result (list (list (list float))) :=
  match cats, X with
  | c :: ct, x :: t =>
      b <- onehot_column mode c x ;;
      r <- onehot_transform mode ct t ;;
      Ok (b :: r)
  | _, _ => Ok []
  end.

Definition cat_transform (mode : handle_unknown) (n : nat)
  (statistics : list (option string)) (cats : list (list string))
  (X : list (list (option string))) : result (list (list float)) :=
  match X with
  | [] => Ok (hstack n [])
  | _ =>
      _ <- check_array n X ;;
      let Xi := imputer_transform statistics X in
      _ <- check_array n Xi ;;
      blocks <- onehot_transform mode cats Xi ;;
      Ok (hstack n blocks)
  end.

(** The [ColumnTransformer] of both pipelines: the ["num"] transformer on
    [num_cols], the ["cat"] transformer (with
    [OneHotEncoder(handle_unknown="ignore")]) on [cat_cols]; a transformer
    whose column list is empty is skipped. *)
Definition preprocessor_fit (num_cols cat_cols : list string) (X : DataFrame)
  : result fitted :=
  Xn <- select numeric_values X num_cols ;;
  Xc <- select object_values X cat_cols ;;
  ns <- num_fit (n_rows X) Xn ;;
  cs <- cat_fit (n_rows X) Xc ;;
  Ok (mkFitted (fst ns) (snd ns) (fst cs) (snd cs)).

Definition preprocessor_transform (num_cols cat_cols : list string)
  (st : fitted) (X : DataFrame) : result (list (list float)) :=
  Xn <- select numeric_values X num_cols ;;
  Xc <- select object_values X cat_cols ;;
  N <- num_transform (n_rows X) (num_statistics st) (num_scalers st) Xn ;;
  C <- cat_transform unknown_ignore (n_rows X)
         (cat_statistics st) (cat_categories st) Xc ;;
  Ok (map2 (@app float) N C).

Definition preprocessor_fit_transform (num_cols cat_cols : list string)
  (X : DataFrame) : result (fitted * list (list float)) :=
  st <- preprocessor_fit num_cols cat_cols X ;;
  M <- preprocessor_transform num_cols cat_cols st X ;;
  Ok (st, M).

(** *** train_test_split *)

Definition float_eqb (a b : float) : bool :=
  match a, b with
  | Some x, Some y => Qeq_bool x y
  | None, None => true
  | _, _ => false
  end.

Fixpoint unique (y : list float) : list float :=
  match y with
  | [] => []
  | v :: t => v :: filter (fun w => negb (float_eqb v w)) (unique t)
  end.

Definition class_counts (y : list float) : list nat :=
  map (fun c => length (filter (float_eqb c) y)) (unique y).

(** [_validate_shuffle_split] for a float [test_size] and no [train_size]. *)
Definition validate_shuffle_split (n_samples : nat) (test_size : Q)
  : result (nat * nat) :=
  if Qle_bool test_size 0 || Qle_bool 1 test_size
  then Raise (ValueError "test_size should be a float in the (0, 1) range")
  else
    let n_test :=
      Z.to_nat (Qceiling (test_size * inject_Z (Z.of_nat n_samples))) in
    let n_train := n_samples - n_test in
    if n_train =? 0
    then Raise (ValueError "the resulting train set will be empty")
    else Ok (n_train, n_test).

(** [check_random_state]: an integer seeds a generator of its own, [None]
    stands for the global one. *)
Definition check_random_state (p : process RandomState) (random_state : option Z)
  : RandomState :=
  match random_state with
  | Some s => seeded s
  | None => np_random p
  end.

(** The indices of [StratifiedShuffleSplit]: its checks on the classes of
    [y], then the draw. *)
Definition stratified_shuffle_split (p : process RandomState)
  (random_state : option Z) (y : list float) (n_train n_test : nat)
  : result (list nat * list nat) :=
  let counts := class_counts y in
  if existsb (fun k => k <? 2) counts
  then Raise (ValueError "The least populated class in y has only 1 member, which is too few.")
  else if n_train <? length counts
  then Raise (ValueError "The train_size should be greater or equal to the number of classes")
  else if n_test <? length counts
  then Raise (ValueError "The test_size should be greater or equal to the number of classes")
  else Ok (stratified_indices (check_random_state p random_state) y n_train n_test).

(** [train_test_split(X, y, test_size=.., random_state=.., stratify=y)] *)
Definition train_test_split (p : process RandomState) (X : DataFrame)
  (y : list float) (test_size : Q) (random_state : option Z)
  : result (DataFrame * DataFrame * list float * list float) :=
  if negb (n_rows X =? length y)
  then Raise (ValueError "Found input variables with inconsistent numbers of samples")
  else
    sizes <- validate_shuffle_split (n_rows X) test_size ;;
    idx <- stratified_shuffle_split p random_state y (fst sizes) (snd sizes) ;;
    Xtr <- iloc X (fst idx) ;;
    Xte <- iloc X (snd idx) ;;
    Ok (Xtr, Xte, iloc_values y (fst idx), iloc_values y (snd idx)).

(** *** The steps both pipelines share *)

(** Steps 2 to 4 (file2.py lines 24-31 and 107-114): the outcome column is
    coerced to numbers, the rows without an outcome are dropped, the cutoff
    is the median of what is left, and the label column is written. *)
Definition derive_target (outcome label : string) (df : DataFrame)
  : result (option Q * DataFrame) :=
  s <- getitem df outcome ;;
  let df := setitem df outcome (to_numeric s) in
  df <- dropna df outcome ;;
  s <- getitem df outcome ;;
  cutoff <- series_median s ;;
  s <- getitem df outcome ;;
  mask <- series_gt s cutoff ;;
  Ok (cutoff, setitem df label (astype_int mask)).

(** Step 6: [y = df[label]] and [X = df.drop(columns=[label])]. *)
Definition features_and_target (label : string) (df : DataFrame)
  : result (DataFrame * list float) :=
  s <- getitem df label ;;
  y <- numeric_values s ;;
  X <- drop df [label] errors_raise ;;
  Ok (X, y).

(** Step 7: the columns of a numeric dtype, and the others. *)
Definition num_cols (X : DataFrame) : list string :=
  map fst (filter (fun kv => is_numeric_dtype (snd kv)) (cols X)).

Definition cat_cols (X : DataFrame) : list string :=
  filter (fun c => negb (mem c (num_cols X))) (columns X).

(** Steps 7 to 10 (lines 49-82 and 130-162): the stratified split of the
    raw rows, the preprocessor fitted on the train partition and applied
    to both partitions. *)
Definition split_and_prepare (p : process RandomState) (X : DataFrame)
  (y : list float) (test_size : Q) (seed : Z) : result prepared :=
  let nums := num_cols X in
  let cats := cat_cols X in
  parts <- train_test_split p X y test_size (Some seed) ;;
  let '(X_train, X_test, y_train, y_test) := parts in
  fit <- preprocessor_fit_transform nums cats X_train ;;
  X_test_prep <- preprocessor_transform nums cats (fst fit) X_test ;;
  Ok (mkPrepared (snd fit) X_test_prep y_train y_test).

(** *** college_train_test *)

Definition college_outcome : string := "grad_150_value".
Definition college_label : string := "high_grad_150".

Definition college_drop_cols : list string :=
  [ "index"; "unitid"; "chronname"; "site"; "nicknames"; "similar";
    "grad_150_value";
    "grad_100_value"; "retain_value";
    "grad_100_percentile"; "retain_percentile"; "grad_150_percentile" ].

(** Step 5: [df.drop(columns=[c for c in drop_cols if c in df.columns],
    errors="ignore")]. *)
Definition college_leakage_filter (df : DataFrame) : result DataFrame :=
  drop df (filter (fun c => in_columns c df) college_drop_cols) errors_ignore.

(** The feature frame [X] and the labels [y] of the college pipeline. *)
Definition college_X_y (df : DataFrame) : result (DataFrame * list float) :=
  t <- derive_target college_outcome college_label df ;;
  df <- college_leakage_filter (snd t) ;;
  features_and_target college_label df.

(** [college_train_test], on the frame [pd.read_csv(csv_path)] loaded. *)
Definition college_train_test (p : process RandomState) (df : DataFrame)
  (test_size : Q) (seed : Z) : result prepared :=
  Xy <- college_X_y df ;;
  split_and_prepare p (fst Xy) (snd Xy) test_size seed.

(** *** job_train_test *)

Definition job_label : string := "above_median_salary".

Definition job_missing_column (salary_col : string) : string :=
  "Couldn't find '" ++ salary_col
  ++ "' in CSV columns. Update salary_col to match your file.".

(** [drop_cols]: the salary column, then every column whose lowercased
    name is in [["status", "placed"]]. *)
Definition job_drop_cols (salary_col : string) (df : DataFrame) : list string :=
  (salary_col
   :: filter (fun c => mem (lower c) ["status"; "placed"]) (columns df))%list.

(** Step 5: [df.drop(columns=list(set(drop_cols)), errors="ignore")]. *)
Definition job_leakage_filter (p : process RandomState) (salary_col : string)
  (df : DataFrame) : result DataFrame :=
  drop df (set_order p (job_drop_cols salary_col df)) errors_ignore.

(** The feature frame [X] and the labels [y] of the job pipeline. *)
Definition job_X_y (p : process RandomState) (df : DataFrame)
  (salary_col : string) : result (DataFrame * list float) :=
  if negb (in_columns salary_col df)
  then Raise (ValueError (job_missing_column salary_col))
  else
    t <- derive_target salary_col job_label df ;;
    df <- job_leakage_filter p salary_col (snd t) ;;
    features_and_target job_label df.

(** [job_train_test], on the frame [pd.read_csv(csv_path)] loaded. *)
Definition job_train_test (p : process RandomState) (df : DataFrame)
  (salary_col : string) (test_size : Q) (seed : Z) : result prepared :=
  Xy <- job_X_y p df salary_col ;;
  split_and_prepare p (fst Xy) (snd Xy) test_size seed.

(** ** Notions the statements use *)

(** The rows [dropna] keeps: those whose coerced outcome is a number. *)
Definition known_rows (raw : series) : list bool :=
  map is_some (coerce_cells raw).

(** The outcome values of the rows that are kept. *)
Definition known_outcomes (raw : series) : list Q :=
  observed (coerce_cells raw).

(** The frame step 4 leaves, written out. *)
Definition labelled_frame (outcome label : string) (df : DataFrame)
  (raw : series) : DataFrame :=
  let vals := known_outcomes raw in
  let cutoff := median (map Some vals) in
  mkDataFrame (length vals)
    (assign label (astype_int (map (fun v => gt (Some v) cutoff) vals))
       (map (fun kv => (fst kv, keep_series (known_rows raw) (snd kv)))
          (assign outcome (to_numeric raw) (cols df)))).

(** The label column step 4 writes. *)
Definition target_labels (raw : series) : list float :=
  let vals := known_outcomes raw in
  map (fun v => Some (if gt (Some v) (median (map Some vals)) then 1%Q else 0%Q))
    vals.

(** The feature frame steps 5 and 6 leave: the columns of [L] without the
    dropped ones and without the label. *)
Definition features_frame (label : string) (L : DataFrame)
  (dropped : list string) : DataFrame :=
  mkDataFrame (n_rows L)
    (filter (fun kv => negb (mem (fst kv) [label]))
       (filter (fun kv => negb (mem (fst kv) dropped)) (cols L))).

(** The columns the college pipeline drops at step 5. *)
Definition college_dropped (L : DataFrame) : list string :=
  filter (fun c => in_columns c L) college_drop_cols.

Definition count_label (v : Q) (ys : list float) : nat :=
  length (filter (float_eqb (Some v)) ys).

(** A [set] built from a list holds the list's elements and nothing else,
    whatever the order it is iterated in. *)
Definition keeps_elements (p : process RandomState) : Prop :=
  forall l x, In x (set_order p l) <-> In x l.

Definition placement_words : list string := ["status"; "placed"].

(** [msg] contains [col]. *)
Definition mentions (msg col : string) : Prop :=
  exists pre post, msg = pre ++ col ++ post.

(** The labels the splitter rejects whatever the sizes: no row at all, or
    a class with a single member. *)
Definition too_few_members (y : list float) : bool :=
  match y with
  | [] => true
  | _ => existsb (fun k => k <? 2) (class_counts y)
  end.

Definition all_width (w : nat) (M : list (list float)) : Prop :=
  Forall (fun row => length row = w) M.

(** How many columns an imputer fitted with [statistics] keeps out of [k]. *)
Fixpoint kept {A : Type} (statistics : list (option A)) (k : nat) : nat :=
  match statistics, k with
  | Some _ :: st, S k' => S (kept st k')
  | None :: st, S k' => kept st k'
  | _, _ => 0
  end.

(** The width of what a fitted preprocessor returns for [k] numeric and
    [k'] categorical input columns. *)
Definition n_features_out (st : fitted) (k k' : nat) : nat :=
  Nat.min (length (num_scalers st)) (kept (num_statistics st) k)
  + list_sum (map (@length string)
                (firstn (kept (cat_statistics st) k') (cat_categories st))).

(** What claim C9 says of a returned result: one fitted state, obtained
    from a train partition alone, produced both matrices, and every row of
    both has the width that state gives. *)
Definition one_schema (r : prepared) : Prop :=
  exists (X X_train X_test : DataFrame) (st : fitted) (w : nat),
    preprocessor_fit (num_cols X) (cat_cols X) X_train = Ok st
    /\ preprocessor_transform (num_cols X) (cat_cols X) st X_train
       = Ok (X_train_prep r)
    /\ preprocessor_transform (num_cols X) (cat_cols X) st X_test
       = Ok (X_test_prep r)
    /\ w = n_features_out st (length (num_cols X)) (length (cat_cols X))
    /\ all_width w (X_train_prep r) /\ all_width w (X_test_prep r).

(** How many values of [l] are strictly above [m]. *)
Definition count_above (m : Q) (l : list Q) : nat :=
  length (filter (fun v => negb (Qle_bool v m)) l).

(** Every cell of a matrix is a finite number. *)
Definition all_finite (M : list (list float)) : Prop :=
  Forall (fun row => forallb is_some row = true) M.

(** No scaler of a fitted state has a zero scale. *)
Definition scales_nonzero (scalers : list scaler) : Prop :=
  Forall (fun sc => Qeq_bool (scale_ sc) 0 = false) scalers.

(** The order of Python on text: [a] comes strictly before [b]. *)
Definition str_lt (a b : string) : Prop := String.ltb a b = true.

(** The number of test rows [train_test_split] asks for. *)
Definition requested_test_rows (n_samples : nat) (test_size : Q) : nat :=
  Z.to_nat (Qceiling (test_size * inject_Z (Z.of_nat n_samples))).

(** A label is 0 or 1. *)
Definition binary (l : float) : Prop := l = Some 0%Q \/ l = Some 1%Q.

(** *** The specification's reading of the target deriver

    The definitions of this part are written from the specification (3
    and 4.1), not from the code, and the theorems compare the code with
    them.  A record has an outcome when its cell is a number that is not
    NaN, or text that reads as a number. *)

Definition spec_number_of_text (t : option string) : option Q :=
  match t with
  | Some text => parse_float text
  | None => None
  end.

(** Row by row, whether the record has an outcome. *)
Definition spec_has_outcome (raw : series) : list bool :=
  match raw with
  | Numeric xs =>
      map (fun x => match x with Some _ => true | None => false end) xs
  | Object xs =>
      map (fun t => match spec_number_of_text t with
                    | Some _ => true
                    | None => false
                    end) xs
  end.


Definition count_le (a : Q) (vals : list Q) : nat :=
  length (filter (fun v => Qle_bool v a) vals).

Definition count_ge (a : Q) (vals : list Q) : nat :=
  length (filter (fun v => Qle_bool a v) vals).

(** [a] is the value of rank [k] (from 0) of [vals] in increasing order: it
    is one of the values, more than [k] values are at most [a], and all
    but [k] at the utmost are at least [a]. *)
Definition has_rank (k : nat) (a : Q) (vals : list Q) : Prop :=
  In a vals /\ k < count_le a vals /\ length vals - k <= count_ge a vals.





(** *** The columns the leakage filters keep *)

Definition college_kept (c : string) : bool := negb (mem c college_drop_cols).

(** The names step 5 of the job pipeline drops. *)
Definition job_dropped_name (salary_col c : string) : bool :=
  String.eqb c salary_col || mem (lower c) placement_words.

Definition job_kept (salary_col c : string) : bool :=
  negb (job_dropped_name salary_col c).

Definition kept_columns (kept : string -> bool) (df : DataFrame)
  : list (string * series) :=
  filter (fun kv => kept (fst kv)) (cols df).

(** The matrices of a result [r] are made without the columns [kept]
    rejects: they are what the preprocessor, fitted on the train partition,
    makes of the two partitions of the feature frame [X] of [Xy]; the
    columns of [X] are exactly the columns of the input frame [df] that
    [kept] accepts, the label apart; and no rejected column is a column of a
    partition or among the columns the preprocessor selects. *)
Definition made_without (kept : string -> bool) (label : string)
  (Xy : result (DataFrame * list float)) (df : DataFrame)
  (p : process RandomState) (test_size : Q) (seed : Z) (r : prepared) : Prop :=
  exists X y X_train X_test st,
    Xy = Ok (X, y)
    /\ train_test_split p X y test_size (Some seed)
       = Ok (X_train, X_test, y_train r, y_test r)
    /\ preprocessor_fit (num_cols X) (cat_cols X) X_train = Ok st
    /\ preprocessor_transform (num_cols X) (cat_cols X) st X_train
       = Ok (X_train_prep r)
    /\ preprocessor_transform (num_cols X) (cat_cols X) st X_test
       = Ok (X_test_prep r)
    /\ (forall c, in_columns c X
                  = kept c && negb (String.eqb c label) && in_columns c df)
    /\ forall c, kept c = false ->
         in_columns c X_train = false
         /\ in_columns c X_test = false
         /\ mem c (num_cols X ++ cat_cols X)%list = false.

(** A pipeline ignores what the rejected columns hold: on a frame [df'] with
    the same accepted columns as [df] and an outcome column known on the
    same rows, the feature frame is the same, and when the labels are the
    same too, so is everything the pipeline returns. *)
Definition ignores_dropped (kept : string -> bool) (outcome : string)
  (X_y : DataFrame -> result (DataFrame * list float))
  (run : DataFrame -> result prepared) (df : DataFrame) : Prop :=
  forall df' raw raw' X y,
    kept_columns kept df' = kept_columns kept df ->
    getitem df outcome = Ok raw ->
    getitem df' outcome = Ok raw' ->
    spec_has_outcome raw' = spec_has_outcome raw ->
    X_y df = Ok (X, y) ->
    exists y', X_y df' = Ok (X, y') /\ (y' = y -> run df' = run df).

(** ** Lemmas on frames *)

Lemma lookup_assign_same (c : string) (s : series) (l : list (string * series)) :
  lookup c (assign c s l) = Some s.
Proof.
  induction l as [|[k v] t IH]; simpl.
  - now rewrite String.eqb_refl.
  - destruct (String.eqb c k) eqn:E; simpl; rewrite E; [reflexivity | exact IH].
Qed.

Lemma lookup_assign_other (c c' : string) (s : series) (l : list (string * series)) :
  String.eqb c' c = false -> lookup c' (assign c s l) = lookup c' l.
Proof.
  intros N. induction l as [|[k v] t IH]; simpl.
  - now rewrite N.
  - destruct (String.eqb c k) eqn:E; simpl.
    + apply String.eqb_eq in E. subst k. now rewrite N.
    + now rewrite IH.
Qed.

Lemma lookup_map_values (f : series -> series) (c : string)
  (l : list (string * series)) :
  lookup c (map (fun kv => (fst kv, f (snd kv))) l) = option_map f (lookup c l).
Proof.
  induction l as [|[k v] t IH]; simpl; [reflexivity|].
  destruct (String.eqb c k); [reflexivity | exact IH].
Qed.

Lemma lookup_filter_names (f : string -> bool) (c : string)
  (l : list (string * series)) :
  lookup c (filter (fun kv => f (fst kv)) l) = if f c then lookup c l else None.
Proof.
  induction l as [|[k v] t IH]; simpl.
  - now destruct (f c).
  - destruct (f k) eqn:Fk; simpl.
    + destruct (String.eqb c k) eqn:E.
      * apply String.eqb_eq in E. subst k. now rewrite Fk.
      * exact IH.
    + destruct (String.eqb c k) eqn:E.
      * apply String.eqb_eq in E. subst k. rewrite Fk in IH. now rewrite Fk.
      * exact IH.
Qed.

Lemma lookup_in_columns (c : string) (df : DataFrame) :
  in_columns c df = is_some (lookup c (cols df)).
Proof.
  unfold in_columns, columns. induction (cols df) as [|[k v] t IH]; simpl.
  - reflexivity.
  - destruct (String.eqb c k); [reflexivity | exact IH].
Qed.

Lemma mem_In (c : string) (l : list string) : mem c l = true <-> In c l.
Proof.
  unfold mem. rewrite existsb_exists. split.
  - intros [x [Hin E]]. apply String.eqb_eq in E. now subst x.
  - intros Hin. exists c. split; [exact Hin | apply String.eqb_refl].
Qed.

Lemma mem_false_In (c : string) (l : list string) :
  mem c l = false <-> ~ In c l.
Proof.
  rewrite <- mem_In. destruct (mem c l); split; congruence.
Qed.

Lemma keep_notna {A : Type} (xs : list (option A)) :
  keep (map is_some xs) xs = map Some (observed xs).
Proof.
  induction xs as [|[x|] t IH]; simpl; [reflexivity | now rewrite IH | exact IH].
Qed.

Lemma count_true_notna {A : Type} (xs : list (option A)) :
  count_true (map is_some xs) = length (observed xs).
Proof.
  unfold count_true.
  induction xs as [|[x|] t IH]; simpl; [reflexivity | now rewrite IH | exact IH].
Qed.

Lemma observed_map_Some {A : Type} (l : list A) : observed (map Some l) = l.
Proof. induction l as [|a t IH]; simpl; [reflexivity | now rewrite IH]. Qed.

Lemma insert_sorted_length (x : Q) (l : list Q) :
  length (insert_sorted x l) = S (length l).
Proof.
  induction l as [|y t IH]; simpl; [reflexivity|].
  destruct (Qle_bool x y); simpl; [reflexivity | now rewrite IH].
Qed.

Lemma sort_values_length (l : list Q) : length (sort_values l) = length l.
Proof.
  induction l as [|x t IH]; simpl; [reflexivity|].
  now rewrite insert_sorted_length, IH.
Qed.

Lemma median_defined (xs : list (option Q)) :
  observed xs <> [] -> exists m, median xs = Some m.
Proof.
  intros N. unfold median. rewrite sort_values_length.
  destruct (observed xs) as [|x t] eqn:E; [congruence|]. simpl length.
  simpl Nat.eqb. cbv zeta.
  destruct (Nat.even (S (length t))); eexists; reflexivity.
Qed.

(** ** The target deriver *)

Lemma derive_target_eq (outcome label : string) (df : DataFrame) (raw : series) :
  getitem df outcome = Ok raw ->
  derive_target outcome label df
  = Ok (median (map Some (known_outcomes raw)),
        labelled_frame outcome label df raw).
Proof.
  intros G. unfold derive_target. rewrite G. cbn [bind].
  unfold dropna, getitem, setitem. cbn [cols n_rows].
  rewrite (lookup_assign_same outcome). cbn [bind notna to_numeric cols].
  rewrite (lookup_map_values (keep_series (map is_some (coerce_cells raw)))).
  rewrite (lookup_assign_same outcome).
  cbn [option_map keep_series bind series_median].
  unfold to_numeric at 1 2. cbn [keep_series series_median bind].
  rewrite keep_notna. cbn [series_gt bind n_rows cols].
  unfold labelled_frame, known_outcomes, known_rows.
  rewrite count_true_notna, map_map. reflexivity.
Qed.

Lemma derive_target_missing (outcome label : string) (df : DataFrame) :
  in_columns outcome df = false ->
  derive_target outcome label df = Raise (KeyError outcome).
Proof.
  intros N. unfold derive_target, getitem.
  rewrite lookup_in_columns in N.
  destruct (lookup outcome (cols df)); [discriminate | reflexivity].
Qed.

Lemma getitem_present (c : string) (df : DataFrame) :
  in_columns c df = true -> exists s, getitem df c = Ok s.
Proof.
  intros P. rewrite lookup_in_columns in P. unfold getitem.
  destruct (lookup c (cols df)); [eauto | discriminate].
Qed.

Lemma getitem_Ok_present (c : string) (df : DataFrame) (s : series) :
  getitem df c = Ok s -> in_columns c df = true.
Proof.
  unfold getitem. rewrite lookup_in_columns.
  destruct (lookup c (cols df)); [reflexivity | discriminate].
Qed.

Lemma labelled_frame_label (outcome label : string) (df : DataFrame) (raw : series) :
  lookup label (cols (labelled_frame outcome label df raw))
  = Some (Numeric (target_labels raw)).
Proof.
  unfold labelled_frame. cbn [cols]. rewrite lookup_assign_same.
  unfold astype_int, target_labels. now rewrite map_map.
Qed.

Lemma labelled_frame_rows (outcome label : string) (df : DataFrame) (raw : series) :
  n_rows (labelled_frame outcome label df raw) = length (target_labels raw).
Proof. unfold labelled_frame, target_labels. cbn. now rewrite length_map. Qed.

(** Steps 5 and 6 on a frame that holds a numeric label column. *)
Lemma filter_then_split_off (label : string) (L : DataFrame)
  (dropped : list string) (ys : list float) :
  lookup label (cols L) = Some (Numeric ys) ->
  (d <- drop L dropped errors_ignore ;; features_and_target label d)
  = if mem label dropped then Raise (KeyError label)
    else Ok (features_frame label L dropped, ys).
Proof.
  intros Hl. unfold drop. cbn [bind]. unfold features_and_target, getitem.
  cbn [cols n_rows].
  rewrite (lookup_filter_names (fun k => negb (mem k dropped))).
  destruct (mem label dropped) eqn:M; cbn [negb]; [reflexivity|].
  rewrite Hl. cbn [bind numeric_values]. unfold drop. cbn [find].
  rewrite lookup_in_columns. cbn [cols].
  rewrite (lookup_filter_names (fun k => negb (mem k dropped))), M. cbn [negb].
  rewrite Hl. reflexivity.
Qed.

Lemma mem_filter_subset (f : string -> bool) (c : string) (l : list string) :
  mem c l = false -> mem c (filter f l) = false.
Proof.
  rewrite !mem_false_In. intros N I. apply N.
  apply filter_In in I. tauto.
Qed.

Ltac bind_inv H :=
  match type of H with
  | bind ?c _ = Ok _ =>
      let E := fresh "E" in
      destruct c eqn:E; [cbn [bind] in H | discriminate H]
  end.

Lemma college_X_y_eq (df : DataFrame) (raw : series) :
  getitem df college_outcome = Ok raw ->
  let L := labelled_frame college_outcome college_label df raw in
  college_X_y df
  = Ok (features_frame college_label L (college_dropped L), target_labels raw).
Proof.
  intros G L. unfold college_X_y. rewrite (derive_target_eq _ college_label _ _ G).
  cbn [bind snd]. fold L. unfold college_leakage_filter.
  rewrite (filter_then_split_off college_label L _ (target_labels raw)).
  - fold (college_dropped L). unfold college_dropped.
    rewrite mem_filter_subset; [reflexivity | vm_compute; reflexivity].
  - apply labelled_frame_label.
Qed.

Lemma college_X_y_missing (df : DataFrame) :
  in_columns college_outcome df = false ->
  college_X_y df = Raise (KeyError college_outcome).
Proof.
  intros N. unfold college_X_y. now rewrite derive_target_missing.
Qed.

Lemma job_X_y_eq (p : process RandomState) (df : DataFrame)
  (salary_col : string) (raw : series) :
  getitem df salary_col = Ok raw ->
  let L := labelled_frame salary_col job_label df raw in
  let dropped := set_order p (job_drop_cols salary_col L) in
  job_X_y p df salary_col
  = if mem job_label dropped then Raise (KeyError job_label)
    else Ok (features_frame job_label L dropped, target_labels raw).
Proof.
  intros G L dropped. unfold job_X_y.
  rewrite (getitem_Ok_present _ _ _ G). cbn [negb].
  rewrite (derive_target_eq _ job_label _ _ G). cbn [bind snd]. fold L.
  unfold job_leakage_filter. fold dropped.
  apply filter_then_split_off. apply labelled_frame_label.
Qed.

Lemma job_X_y_missing (p : process RandomState) (df : DataFrame)
  (salary_col : string) :
  in_columns salary_col df = false ->
  job_X_y p df salary_col
  = Raise (ValueError (job_missing_column salary_col)).
Proof. intros N. unfold job_X_y. now rewrite N. Qed.

(** The labels a pipeline returns are rows of the labels it split. *)
Lemma split_and_prepare_labels (p : process RandomState) (X : DataFrame)
  (y : list float) (test_size : Q) (seed : Z) (r : prepared) :
  split_and_prepare
    p X y test_size seed = Ok r ->
  exists tr te,
    y_train r = iloc_values y tr /\ y_test r = iloc_values y te
    /\ forallb (fun i => i <? length y) (tr ++ te)%list = true.
Proof.
  unfold split_and_prepare, train_test_split. intros H.
  destruct (n_rows X =? length y) eqn:Len; cbn [negb bind] in H; [|discriminate].
  apply Nat.eqb_eq in Len.
  destruct (validate_shuffle_split (n_rows X) test_size) as [sizes|]; [|discriminate].
  cbn [bind] in H.
  destruct (stratified_shuffle_split
              p (Some seed) y (fst sizes) (snd sizes)) as [[tr te]|]; [|discriminate].
  cbn [bind fst snd] in H. unfold iloc in H.
  destruct (forallb (fun i => i <? n_rows X) tr) eqn:Ftr; [|discriminate].
  cbn [bind] in H.
  destruct (forallb (fun i => i <? n_rows X) te) eqn:Fte; [|discriminate].
  cbn [bind] in H. bind_inv H. bind_inv H.
  injection H as <-. exists tr, te. cbn [y_train y_test].
  repeat split. rewrite forallb_app, <- Len, Ftr, Fte. reflexivity.
Qed.

Lemma college_X_y_labels (df : DataFrame) (X : DataFrame) (y : list float) :
  college_X_y df = Ok (X, y) ->
  exists raw, getitem df college_outcome = Ok raw /\ y = target_labels raw.
Proof.
  intros H. destruct (in_columns college_outcome df) eqn:P.
  - destruct (getitem_present _ _ P) as [raw G]. exists raw. split; [exact G|].
    rewrite (college_X_y_eq df raw G) in H. now injection H.
  - rewrite (college_X_y_missing df P) in H. discriminate.
Qed.

Lemma job_X_y_labels (p : process RandomState) (df : DataFrame)
  (salary_col : string) (X : DataFrame) (y : list float) :
  job_X_y p df salary_col = Ok (X, y) ->
  exists raw, getitem df salary_col = Ok raw /\ y = target_labels raw.
Proof.
  intros H. destruct (in_columns salary_col df) eqn:P.
  - destruct (getitem_present _ _ P) as [raw G]. exists raw. split; [exact G|].
    rewrite (job_X_y_eq p df salary_col raw G) in H.
    destruct (mem job_label _); [discriminate | now injection H].
  - rewrite (job_X_y_missing p df salary_col P) in H. discriminate.
Qed.

(** ** Claim C4: every surviving row is labelled *)

Lemma target_labels_counts (raw : series) :
  count_label 1 (target_labels raw) + count_label 0 (target_labels raw)
  = length (target_labels raw)
  /\ forallb is_some (target_labels raw) = true.
Proof.
  unfold target_labels, count_label.
  generalize (median (map Some (known_outcomes raw))). intros cutoff.
  induction (known_outcomes raw) as [|v t [IH1 IH2]]; [split; reflexivity|].
  cbn [map filter forallb is_some andb]. split; [|exact IH2].
  destruct (gt (Some v) cutoff); cbn [float_eqb];
    change (Qeq_bool 1 1) with true; change (Qeq_bool 0 0) with true;
    change (Qeq_bool 1 0) with false; change (Qeq_bool 0 1) with false;
    cbn [length]; lia.
Qed.

Lemma labelled_frame_other (outcome label : string) (df : DataFrame)
  (raw : series) (c : string) :
  String.eqb c label = false -> String.eqb c outcome = false ->
  lookup c (cols (labelled_frame outcome label df raw))
  = option_map (keep_series (known_rows raw)) (lookup c (cols df)).
Proof.
  intros Nl No. unfold labelled_frame. cbn [cols].
  rewrite (lookup_assign_other label c _ _ Nl).
  rewrite (lookup_map_values (keep_series (known_rows raw))).
  now rewrite (lookup_assign_other outcome c _ _ No).
Qed.

(** ** Claims C2 and C10: the leakage filters *)

Lemma in_columns_features (label : string) (L : DataFrame)
  (dropped : list string) (c : string) :
  in_columns c (features_frame label L dropped)
  = negb (mem c [label]) && (negb (mem c dropped) && in_columns c L).
Proof.
  rewrite !lookup_in_columns. unfold features_frame. cbn [cols].
  rewrite (lookup_filter_names (fun k => negb (mem k [label]))).
  destruct (negb (mem c [label])); [|reflexivity]. cbn [andb].
  rewrite (lookup_filter_names (fun k => negb (mem k dropped))).
  destruct (negb (mem c dropped)); reflexivity.
Qed.

Lemma in_columns_mem (c : string) (df : DataFrame) :
  in_columns c df = mem c (columns df).
Proof. reflexivity. Qed.

Lemma selected_in_columns (c : string) (X : DataFrame) :
  in_columns c X = false -> mem c (num_cols X ++ cat_cols X)%list = false.
Proof.
  rewrite in_columns_mem, !mem_false_In. intros N I. apply N.
  apply in_app_or in I. destruct I as [I|I].
  - unfold num_cols in I. apply in_map_iff in I.
    destruct I as [kv [<- I]]. apply filter_In in I.
    unfold columns. apply in_map. tauto.
  - unfold cat_cols in I. apply filter_In in I. tauto.
Qed.

Lemma in_columns_labelled (outcome label : string) (df : DataFrame)
  (raw : series) (c : string) :
  in_columns outcome df = true ->
  in_columns c (labelled_frame outcome label df raw)
  = in_columns c df || String.eqb c label.
Proof.
  intros P. rewrite !lookup_in_columns in *.
  destruct (String.eqb c label) eqn:El.
  - apply String.eqb_eq in El. subst c. rewrite labelled_frame_label.
    now rewrite orb_true_r.
  - rewrite orb_false_r. destruct (String.eqb c outcome) eqn:Eo.
    + apply String.eqb_eq in Eo. subst c. unfold labelled_frame. cbn [cols].
      rewrite (lookup_assign_other label outcome _ _ El).
      rewrite (lookup_map_values (keep_series (known_rows raw))).
      rewrite lookup_assign_same. cbn.
      destruct (lookup outcome (cols df)); [reflexivity | discriminate].
    + rewrite (labelled_frame_other outcome label df raw c El Eo).
      destruct (lookup c (cols df)); reflexivity.
Qed.

(** C10. In the job pipeline a column other than the salary column and the
    label stays a feature exactly when its lowercased name is neither
    ["status"] nor ["placed"]: the test compares the whole name, so
    ["placement_status"] is kept. *)
Theorem job_dynamic_drop_exact (p : process RandomState) (df : DataFrame)
  (salary_col : string) (X : DataFrame) (y : list float) (c : string) :
  keeps_elements p ->
  job_X_y p df salary_col = Ok (X, y) ->
  in_columns c df = true ->
  String.eqb c salary_col = false ->
  String.eqb c job_label = false ->
  in_columns c X = negb (mem (lower c) placement_words)
  /\ (mem (lower c) placement_words = true
      <-> lower c = "status" \/ lower c = "placed")
  /\ mem (lower "placement_status") placement_words = false.
Proof.
  intros Hset H P Ns Nl. split; [|split].
  - destruct (job_X_y_labels p df salary_col X y H) as [raw [G _]].
    rewrite (job_X_y_eq p df salary_col raw G) in H.
    destruct (mem job_label _); [discriminate|]. injection H as <- _.
    rewrite in_columns_features.
    set (L := labelled_frame salary_col job_label df raw).
    assert (PL : in_columns c L = true).
    { unfold L. rewrite in_columns_labelled by exact (getitem_Ok_present _ _ _ G).
      now rewrite P. }
    rewrite PL, andb_true_r. cbn [mem existsb]. rewrite Nl. cbn [orb negb andb].
    f_equal.
    destruct (mem (lower c) placement_words) eqn:M.
    + apply mem_In. apply Hset. unfold job_drop_cols. right.
      apply filter_In. split; [|exact M].
      apply mem_In. rewrite <- in_columns_mem. exact PL.
    + apply mem_false_In. intros I. apply (proj1 (Hset _ _)) in I.
      unfold job_drop_cols in I.
      apply in_inv in I. destruct I as [I|I].
      * subst c. now rewrite String.eqb_refl in Ns.
      * apply filter_In in I. destruct I as [_ I].
        unfold placement_words in M. congruence.
  - rewrite mem_In. unfold placement_words. cbn [In].
    split; [intros [E|[E|[]]]; auto | intros [E|E]; auto].
  - reflexivity.
Qed.

(** ** Claim C3: a missing outcome column *)

(** C3 (amended). Without the salary column [job_train_test] raises a
    ValueError whose message contains the column name; without
    [grad_150_value], [college_train_test] raises the KeyError of the
    column lookup, which is not an AttributeError. *)
Theorem missing_outcome_errors (p : process RandomState) (df : DataFrame)
  (salary_col : string) (test_size : Q) (seed : Z) :
  in_columns salary_col df = false ->
  in_columns college_outcome df = false ->
  job_train_test
    p df salary_col test_size seed
  = Raise (ValueError (job_missing_column salary_col))
  /\ mentions (job_missing_column salary_col) salary_col
  /\ college_train_test p df test_size seed
     = Raise (KeyError college_outcome)
  /\ is_AttributeError (KeyError college_outcome) = false.
Proof.
  intros Nj Nc. repeat split.
  - unfold job_train_test. now rewrite (job_X_y_missing p df salary_col Nj).
  - unfold mentions, job_missing_column. eexists. eexists. reflexivity.
  - unfold college_train_test. now rewrite (college_X_y_missing df Nc).
Qed.

(** ** Claim C5: categories unseen at fit time *)


Lemma onehot_cell_ignore (cats : list string) (v : string) :
  exists row, onehot_cell unknown_ignore cats v = Ok row
              /\ length row = length cats.
Proof.
  unfold onehot_cell. destruct (mem v cats); eexists; split;
    try reflexivity; unfold indicator; now rewrite length_map.
Qed.

Lemma onehot_column_ignore (cats : list string) (x : list string) :
  exists block,
    onehot_column unknown_ignore cats x = Ok block
    /\ length block = length x
    /\ Forall (fun row => length row = length cats) block.
Proof.
  unfold onehot_column. induction x as [|v t [block [E [Len All]]]].
  - exists []. cbn. auto.
  - destruct (onehot_cell_ignore cats v) as [row [Er Lr]].
    exists (row :: block). cbn [mapM]. rewrite Er, E. cbn [bind length].
    repeat split; [now rewrite Len | now constructor].
Qed.

Lemma onehot_transform_ignore (cats : list (list string)) (X : list (list string)) :
  exists blocks,
    onehot_transform unknown_ignore cats X = Ok blocks
    /\ Forall2 (fun c b => Forall (fun row => length row = length c) b)
         (firstn (length X) cats) blocks.
Proof.
  revert X. induction cats as [|c ct IH]; intros X.
  - exists []. destruct X; cbn; auto.
  - destruct X as [|x t].
    + exists []. cbn. auto.
    + destruct (onehot_column_ignore c x) as [b [Eb [_ Ab]]].
      destruct (IH t) as [bs [Ebs Abs]].
      exists (b :: bs). cbn [onehot_transform]. rewrite Eb, Ebs. cbn [bind].
      split; [reflexivity|]. cbn [length firstn]. now constructor.
Qed.


(** ** Claim C6: a column of zero standard deviation *)

Lemma scale_nonzero (x : list Q) :
  Qeq_bool (scale_ (scaler_fit x)) 0 = false.
Proof.
  unfold scaler_fit, handle_zeros_in_scale. cbn [scale_].
  destruct (Qeq_bool (np_sqrt (variance x)) 0) eqn:E; [reflexivity | exact E].
Qed.

(** C6. For a column whose fit-time standard deviation is zero the scale
    is exactly 1, so every scaled value is the finite number [v - mean];
    and for every fitted column the scale differs from zero, so scaling
    never yields a non-finite cell. *)
Theorem zero_std_scales_by_one (x : list Q) :
  (np_sqrt (variance x) == 0)%Q ->
  scale_ (scaler_fit x) = 1%Q
  /\ (forall t,
        Forall2 (fun v o => exists r, o = Some r /\ (r == v - mean x)%Q)
          t (scaler_transform (scaler_fit x) t))
  /\ (forall x' t,
        forallb is_some (scaler_transform (scaler_fit x') t) = true).
Proof.
  intros Z0.
  assert (S1 : scale_ (scaler_fit x) = 1%Q).
  { unfold scaler_fit, handle_zeros_in_scale. cbn [scale_].
    apply Qeq_bool_iff in Z0. now rewrite Z0. }
  split; [exact S1|]. split.
  - intros t. unfold scaler_transform. rewrite S1.
    induction t as [|v t IH]; cbn [map]; constructor; [|exact IH].
    unfold fdiv. change (Qeq_bool 1 0) with false. cbn [mean_ scaler_fit].
    eexists. split; [reflexivity|]. unfold Qdiv.
    change (/ 1)%Q with 1%Q. apply Qmult_1_r.
  - intros x' t. unfold scaler_transform.
    induction t as [|v t IH]; [reflexivity|]. cbn [map forallb].
    unfold fdiv at 1. rewrite scale_nonzero. exact IH.
Qed.

(** ** Claim C7: determinism *)

Lemma mem_ext (l l' : list string) :
  (forall x, In x l <-> In x l') -> forall c, mem c l = mem c l'.
Proof.
  intros H c. destruct (mem c l') eqn:E.
  - apply mem_In. apply H. now apply mem_In.
  - apply mem_false_In. intros I. apply H in I.
    apply mem_In in I. congruence.
Qed.

Lemma drop_ignore_ext (df : DataFrame) (l l' : list string) :
  (forall x, In x l <-> In x l') ->
  drop df l errors_ignore = drop df l' errors_ignore.
Proof.
  intros H. unfold drop. do 2 f_equal.
  apply filter_ext. intros kv. now rewrite (mem_ext l l' H).
Qed.

Lemma job_X_y_process (p p' : process RandomState) (df : DataFrame)
  (salary_col : string) :
  keeps_elements p -> keeps_elements p' ->
  job_X_y p df salary_col
  = job_X_y p' df salary_col.
Proof.
  intros K K'. unfold job_X_y.
  destruct (negb (in_columns salary_col df)); [reflexivity|].
  destruct (derive_target salary_col job_label df) as [t|e];
    [|reflexivity].
  cbn [bind]. unfold job_leakage_filter.
  rewrite (drop_ignore_ext (snd t)
             (set_order p (job_drop_cols salary_col (snd t)))
             (set_order p' (job_drop_cols salary_col (snd t)))).
  - reflexivity.
  - intros x. rewrite (K _ x), (K' _ x). reflexivity.
Qed.

(** C7. Two runs on the same frame with the same [test_size] and the same
    seed return the same result (matrices, labels and partition), whatever
    the state of numpy's global generator and the iteration order of sets
    in the two processes. *)
Theorem same_inputs_same_outputs (p p' : process RandomState) (df : DataFrame)
  (salary_col : string) (test_size : Q) (seed : Z) :
  keeps_elements p -> keeps_elements p' ->
  college_train_test p df test_size seed
  = college_train_test p' df test_size seed
  /\ job_train_test p df salary_col test_size seed
     = job_train_test p' df salary_col test_size seed.
Proof.
  intros K K'. split.
  - reflexivity.
  - unfold job_train_test. rewrite (job_X_y_process p p' df salary_col K K').
    reflexivity.
Qed.

(** ** Claim C8: what the splitter rejects *)

Lemma validate_shuffle_split_error (n : nat) (test_size : Q) (e : exn) :
  validate_shuffle_split n test_size = Raise e -> exists msg, e = ValueError msg.
Proof.
  unfold validate_shuffle_split.
  destruct (Qle_bool test_size 0 || Qle_bool 1 test_size).
  - intros H. injection H as <-. eauto.
  - cbv zeta. destruct (_ =? 0); [|discriminate].
    intros H. injection H as <-. eauto.
Qed.

Lemma validate_shuffle_split_empty (test_size : Q) :
  succeeds (validate_shuffle_split 0 test_size) = false.
Proof.
  unfold validate_shuffle_split.
  destruct (Qle_bool test_size 0 || Qle_bool 1 test_size); reflexivity.
Qed.

Lemma split_and_prepare_rejects (p : process RandomState) (X : DataFrame)
  (y : list float) (test_size : Q) (seed : Z) :
  too_few_members y = true ->
  exists msg,
    split_and_prepare
      p X y test_size seed = Raise (ValueError msg).
Proof.
  intros T. unfold split_and_prepare, train_test_split.
  destruct (n_rows X =? length y) eqn:Len; cbn [negb]; [|eexists; reflexivity].
  apply Nat.eqb_eq in Len.
  destruct (validate_shuffle_split (n_rows X) test_size) as [sizes|e] eqn:V.
  - cbn [bind]. unfold stratified_shuffle_split.
    destruct y as [|l t].
    + cbn [length] in Len. rewrite Len in V.
      pose proof (validate_shuffle_split_empty test_size) as F.
      rewrite V in F. discriminate.
    + cbn [too_few_members] in T. rewrite T. cbn [bind]. eexists. reflexivity.
  - destruct (validate_shuffle_split_error _ _ _ V) as [msg ->].
    cbn [bind]. eexists. reflexivity.
Qed.

Lemma float_eqb_refl (l : float) : float_eqb l l = true.
Proof. destruct l as [q|]; [apply Qeq_bool_iff; reflexivity | reflexivity]. Qed.

Lemma unique_repeat (l : float) (n : nat) : unique (repeat l (S n)) = [l].
Proof.
  induction n as [|n IH]; [reflexivity|].
  change (repeat l (S (S n))) with (l :: repeat l (S n)).
  cbn [unique]. rewrite IH. cbn [filter]. now rewrite float_eqb_refl.
Qed.

Lemma class_counts_repeat (l : float) (n : nat) :
  class_counts (repeat l (S n)) = [S n].
Proof.
  unfold class_counts. rewrite unique_repeat. cbn [map]. f_equal.
  rewrite <- (repeat_length l (S n)) at 2. f_equal.
  induction (S n) as [|k IH]; [reflexivity|].
  cbn [repeat filter]. now rewrite float_eqb_refl, IH.
Qed.

(** C8 (amended). When the derived labels are empty or hold a class with a
    single member, the call raises a ValueError and returns nothing; labels
    of a single class with two members or more pass the checks of the
    stratified splitter, which then draws its indices. *)
Theorem single_member_class_rejected (p : process RandomState) (df : DataFrame)
  (salary_col : string) (test_size : Q) (seed : Z) :
  (forall X y,
     college_X_y df = Ok (X, y) -> too_few_members y = true ->
     exists msg,
       college_train_test p df test_size seed = Raise (ValueError msg))
  /\ (forall X y,
        job_X_y p df salary_col = Ok (X, y) ->
        too_few_members y = true ->
        exists msg,
          job_train_test p df salary_col test_size seed
          = Raise (ValueError msg))
  /\ (forall l n n_train n_test,
        1 <= n_train -> 1 <= n_test ->
        stratified_shuffle_split p (Some seed) (repeat l (2 + n)) n_train n_test
        = Ok (stratified_indices (seeded seed) (repeat l (2 + n))
                n_train n_test)).
Proof.
  split; [|split].
  - intros X y H T. unfold college_train_test. rewrite H. cbn [bind fst snd].
    now apply split_and_prepare_rejects.
  - intros X y H T. unfold job_train_test. rewrite H. cbn [bind fst snd].
    now apply split_and_prepare_rejects.
  - intros l n n_train n_test Htr Hte. unfold stratified_shuffle_split.
    change (2 + n) with (S (S n)). rewrite class_counts_repeat.
    cbn [existsb length orb]. change (S (S n) <? 2) with false. cbn [orb].
    destruct (n_train <? 1) eqn:A; [apply Nat.ltb_lt in A; lia|].
    destruct (n_test <? 1) eqn:B; [apply Nat.ltb_lt in B; lia|].
    reflexivity.
Qed.

(** ** Claim C9: one output schema for both partitions *)

Lemma map2_Forall {A B C : Type} (f : A -> B -> C)
  (P : A -> Prop) (P' : B -> Prop) (R : C -> Prop) (l : list A) (l' : list B) :
  (forall a b, P a -> P' b -> R (f a b)) ->
  Forall P l -> Forall P' l' -> Forall R (map2 f l l').
Proof.
  intros H Hl. revert l'. unfold map2.
  induction Hl as [|a t Pa _ IH]; intros l' Hl'; [constructor|].
  destruct Hl' as [|b t' Pb Ht']; [constructor|].
  cbn. constructor; [now apply H | now apply IH].
Qed.

Lemma map2_length {A B C : Type} (f : A -> B -> C) (l : list A) (l' : list B) :
  length (map2 f l l') = Nat.min (length l) (length l').
Proof. unfold map2. now rewrite length_map, length_combine. Qed.

Lemma hstack_width (n : nat) (ws : list nat) (blocks : list (list (list float))) :
  Forall2 all_width ws blocks -> all_width (list_sum ws) (hstack n blocks).
Proof.
  unfold hstack. induction 1 as [|w b ws bs Hb _ IH].
  - unfold all_width. apply Forall_forall. intros row I.
    apply repeat_spec in I. now subst row.
  - change (list_sum (w :: ws)) with (w + list_sum ws).
    change (fold_right (fun b acc => map2 (@app float) b acc) (repeat [] n) (b :: bs))
      with (map2 (@app float) b
              (fold_right (fun b acc => map2 (@app float) b acc) (repeat [] n) bs)).
    unfold all_width in *.
    apply (map2_Forall _ (fun r => length r = w)
             (fun r => length r = list_sum ws)); auto.
    intros r r' <- <-. apply length_app.
Qed.

Lemma column_blocks_width (cs : list (list float)) :
  Forall2 all_width (repeat 1 (length cs)) (map column_block cs).
Proof.
  induction cs as [|c t IH]; cbn; constructor; [|exact IH].
  unfold all_width, column_block. apply Forall_forall. intros row I.
  apply in_map_iff in I. destruct I as [v [<- _]]. reflexivity.
Qed.

Lemma list_sum_ones (k : nat) : list_sum (repeat 1 k) = k.
Proof.
  induction k as [|k IH]; [reflexivity|].
  change (list_sum (repeat 1 (S k))) with (S (list_sum (repeat 1 k))).
  now rewrite IH.
Qed.

Lemma imputer_transform_length {A : Type} (statistics : list (option A))
  (X : list (list (option A))) :
  length (imputer_transform statistics X) = kept statistics (length X).
Proof.
  revert X. induction statistics as [|[v|] st IH]; intros [|x t]; cbn;
    try reflexivity; now rewrite IH.
Qed.

Lemma mapM_length {A B : Type} (f : A -> result B) (l : list A) (r : list B) :
  mapM f l = Ok r -> length r = length l.
Proof.
  revert r. induction l as [|a t IH]; intros r H; cbn in H.
  - now injection H as <-.
  - bind_inv H. bind_inv H. injection H as <-. cbn. now rewrite (IH _ eq_refl).
Qed.

Lemma num_transform_width (n : nat) (statistics : list (option Q))
  (scalers : list scaler) (X : list (list (option Q))) (M : list (list float)) :
  num_transform n statistics scalers X = Ok M ->
  all_width (Nat.min (length scalers) (kept statistics (length X))) M.
Proof.
  unfold num_transform. intros H.
  assert (G : all_width
                (Nat.min (length scalers) (kept statistics (length X)))
                (hstack n (map column_block
                             (map2 scaler_transform scalers
                                (imputer_transform statistics X))))).
  { rewrite <- imputer_transform_length.
    rewrite <- (map2_length scaler_transform).
    rewrite <- (list_sum_ones (length _)).
    apply hstack_width, column_blocks_width. }
  destruct X as [|x t].
  - injection H as <-.
    replace (kept statistics (length (@nil (list (option Q))))) with 0
      by (destruct statistics as [|[v|] st]; reflexivity).
    rewrite Nat.min_0_r. apply (hstack_width n [] []). constructor.
  - bind_inv H. bind_inv H. now injection H as <-.
Qed.

Lemma cat_transform_width (n : nat) (statistics : list (option string))
  (cats : list (list string)) (X : list (list (option string)))
  (M : list (list float)) :
  cat_transform unknown_ignore n statistics cats X = Ok M ->
  all_width
    (list_sum (map (@length string) (firstn (kept statistics (length X)) cats)))
    M.
Proof.
  unfold cat_transform. intros H.
  destruct X as [|x t].
  - injection H as <-.
    replace (kept statistics (length (@nil (list (option string))))) with 0
      by (destruct statistics as [|[v|] st]; reflexivity).
    apply (hstack_width n [] []). constructor.
  - bind_inv H. bind_inv H. bind_inv H. injection H as <-.
    rewrite <- imputer_transform_length.
    apply hstack_width.
    destruct (onehot_transform_ignore cats
                (imputer_transform statistics (x :: t))) as [bs [Ebs F]].
    rewrite Ebs in E1. injection E1 as <-.
    clear - F. induction F; cbn; constructor; auto.
Qed.

Lemma preprocessor_transform_width (nums cats : list string) (st : fitted)
  (X : DataFrame) (M : list (list float)) :
  preprocessor_transform nums cats st X = Ok M ->
  all_width (n_features_out st (length nums) (length cats)) M.
Proof.
  unfold preprocessor_transform, select. intros H.
  bind_inv H. bind_inv H. bind_inv H. bind_inv H. injection H as <-.
  apply mapM_length in E, E0.
  apply num_transform_width in E1. apply cat_transform_width in E2.
  rewrite E in E1. rewrite E0 in E2.
  unfold all_width, n_features_out in *.
  eapply map2_Forall; [|exact E1|exact E2].
  intros r r' <- <-. apply length_app.
Qed.

(** The preprocessor is fitted on the train partition only and that fitted
    state transforms both partitions. *)
Lemma split_and_prepare_fitted (p : process RandomState) (X : DataFrame)
  (y : list float) (test_size : Q) (seed : Z) (r : prepared) :
  split_and_prepare
    p X y test_size seed = Ok r ->
  exists X_train X_test st,
    preprocessor_fit (num_cols X) (cat_cols X) X_train = Ok st
    /\ preprocessor_transform (num_cols X) (cat_cols X) st X_train
       = Ok (X_train_prep r)
    /\ preprocessor_transform (num_cols X) (cat_cols X) st X_test
       = Ok (X_test_prep r).
Proof.
  unfold split_and_prepare. intros H. bind_inv H.
  destruct a as [[[X_train X_test] ytr] yte].
  unfold preprocessor_fit_transform in H.
  destruct (preprocessor_fit (num_cols X) (cat_cols X) X_train)
    as [st|] eqn:F; [|discriminate].
  cbn [bind] in H.
  destruct (preprocessor_transform (num_cols X) (cat_cols X) st X_train)
    as [M|] eqn:T; [|discriminate].
  cbn [bind fst snd] in H. bind_inv H.
  injection H as <-. exists X_train, X_test, st. cbn. auto.
Qed.

(** C9. When a pipeline returns, every row of the train matrix and every
    row of the test matrix has the same number of columns: the
    preprocessor is fitted on the train partition and that one fitted
    state produces both matrices. *)
Theorem train_and_test_same_width (p : process RandomState) (df : DataFrame)
  (salary_col : string) (test_size : Q) (seed : Z) :
  (forall r,
     college_train_test p df test_size seed = Ok r ->
     one_schema r)
  /\ (forall r,
        job_train_test p df salary_col test_size seed = Ok r ->
        one_schema r).
Proof.
  assert (G : forall X y r,
     split_and_prepare
       p X y test_size seed = Ok r ->
     one_schema r).
  { intros X y r H.
    destruct (split_and_prepare_fitted _ _ _ _ _ _ H) as [Xtr [Xte [st [F [A B]]]]].
    exists X, Xtr, Xte, st,
      (n_features_out st (length (num_cols X)) (length (cat_cols X))).
    repeat split; try assumption;
      eapply preprocessor_transform_width; eassumption. }
  split; intros r H.
  - unfold college_train_test in H. bind_inv H. eapply G; eassumption.
  - unfold job_train_test in H. bind_inv H. eapply G; eassumption.
Qed.

(** ** Further properties of the two pipelines *)

(** *** The feature frame *)

Lemma features_frame_lookup (label : string) (L : DataFrame)
  (dropped : list string) (c : string) :
  lookup c (cols (features_frame label L dropped))
  = if negb (mem c [label]) && negb (mem c dropped)
    then lookup c (cols L) else None.
Proof using.
  unfold features_frame. cbn [cols].
  rewrite (lookup_filter_names (fun k => negb (mem k [label]))).
  destruct (negb (mem c [label])); [|reflexivity]. cbn [andb].
  now rewrite (lookup_filter_names (fun k => negb (mem k dropped))).
Qed.

Lemma job_label_not_dropped (p : process RandomState) (salary_col : string)
  (L : DataFrame) :
  keeps_elements p -> String.eqb salary_col job_label = false ->
  mem job_label (set_order p (job_drop_cols salary_col L)) = false.
Proof.
  intros K N. apply mem_false_In. intros I. apply (proj1 (K _ _)) in I.
  unfold job_drop_cols in I. apply in_inv in I. destruct I as [I|I].
  - subst salary_col. now rewrite String.eqb_refl in N.
  - apply filter_In in I. destruct I as [_ I]. vm_compute in I. discriminate.
Qed.

(** X1. The feature frame never holds the label column, and it has as many
    rows as there are labels, in both pipelines. *)
Theorem features_exclude_label (p : process RandomState) (df : DataFrame)
  (salary_col : string) :
  (forall X y,
     college_X_y df = Ok (X, y) ->
     in_columns college_label X = false /\ n_rows X = length y)
  /\ (forall X y,
        job_X_y p df salary_col = Ok (X, y) ->
        in_columns job_label X = false /\ n_rows X = length y).
Proof.
  split; intros X y H.
  - destruct (college_X_y_labels df X y H) as [raw [G ->]].
    rewrite (college_X_y_eq df raw G) in H. injection H as <-.
    rewrite in_columns_features. cbn [mem existsb].
    rewrite String.eqb_refl. split; [reflexivity|].
    cbn [features_frame n_rows]. apply labelled_frame_rows.
  - destruct (job_X_y_labels p df salary_col X y H) as [raw [G ->]].
    rewrite (job_X_y_eq p df salary_col raw G) in H.
    destruct (mem job_label _); [discriminate|]. injection H as <-.
    rewrite in_columns_features. cbn [mem existsb].
    rewrite String.eqb_refl. split; [reflexivity|].
    cbn [features_frame n_rows]. apply labelled_frame_rows.
Qed.

(** X2. A column that is neither dropped nor the label reaches the feature
    frame with its own cells, restricted to the rows whose outcome is
    known: the leakage filter changes no value and drops no other column. *)
Theorem features_keep_other_columns (p : process RandomState) (df : DataFrame)
  (salary_col : string) (c : string) (s : series) :
  getitem df c = Ok s ->
  (forall X y raw,
     college_X_y df = Ok (X, y) -> getitem df college_outcome = Ok raw ->
     mem c college_drop_cols = false -> String.eqb c college_label = false ->
     getitem X c = Ok (keep_series (known_rows raw) s))
  /\ (forall X y raw,
        keeps_elements p ->
        job_X_y p df salary_col = Ok (X, y) -> getitem df salary_col = Ok raw ->
        String.eqb c salary_col = false -> String.eqb c job_label = false ->
        mem (lower c) placement_words = false ->
        getitem X c = Ok (keep_series (known_rows raw) s)).
Proof.
  intros Gc. split.
  - intros X y raw H G D Nl.
    rewrite (college_X_y_eq df raw G) in H. injection H as <- _.
    unfold getitem in *. rewrite features_frame_lookup.
    cbn [mem existsb]. rewrite Nl. cbn [orb negb andb].
    unfold college_dropped. rewrite (mem_filter_subset _ _ _ D). cbn [negb].
    assert (No : String.eqb c college_outcome = false).
    { destruct (String.eqb c college_outcome) eqn:E; [|reflexivity].
      apply String.eqb_eq in E. subst c. vm_compute in D. discriminate. }
    rewrite (labelled_frame_other _ _ _ _ _ Nl No).
    destruct (lookup c (cols df)); [|discriminate]. now injection Gc as ->.
  - intros X y raw K H G Ns Nl W.
    rewrite (job_X_y_eq p df salary_col raw G) in H.
    destruct (mem job_label _); [discriminate|]. injection H as <- _.
    unfold getitem in *. rewrite features_frame_lookup.
    cbn [mem existsb]. rewrite Nl. cbn [orb negb andb].
    match goal with |- context [mem c ?d] =>
      assert (M : mem c d = false) end.
    { apply mem_false_In. intros I. apply (proj1 (K _ _)) in I.
      unfold job_drop_cols in I. apply in_inv in I. destruct I as [I|I].
      - subst c. now rewrite String.eqb_refl in Ns.
      - apply filter_In in I. destruct I as [_ I].
        unfold placement_words in W. congruence. }
    rewrite M. cbn [negb].
    rewrite (labelled_frame_other _ _ _ _ _ Nl Ns).
    destruct (lookup c (cols df)); [|discriminate]. now injection Gc as ->.
Qed.

(** *** Edge cases of the calls *)

(** X3. When the salary column is itself named [above_median_salary], the
    label overwrites it, step 5 drops it as the salary column, and
    [df["above_median_salary"]] at step 6 raises a KeyError. *)
Theorem job_salary_named_as_label (p : process RandomState) (df : DataFrame)
  (test_size : Q) (seed : Z) :
  keeps_elements p -> in_columns job_label df = true ->
  job_train_test p df job_label test_size seed = Raise (KeyError job_label).
Proof.
  intros K P. destruct (getitem_present _ _ P) as [raw G].
  unfold job_train_test. rewrite (job_X_y_eq p df job_label raw G).
  match goal with |- context [mem job_label ?d] =>
    assert (M : mem job_label d = true) end.
  { apply mem_In. apply K. unfold job_drop_cols. left. reflexivity. }
  rewrite M. reflexivity.
Qed.

Lemma split_and_prepare_bad_size (p : process RandomState) (X : DataFrame)
  (y : list float) (test_size : Q) (seed : Z) :
  Qle_bool test_size 0 || Qle_bool 1 test_size = true ->
  exists msg, split_and_prepare p X y test_size seed = Raise (ValueError msg).
Proof.
  intros B. unfold split_and_prepare, train_test_split.
  destruct (negb (n_rows X =? length y)); [eexists; reflexivity|].
  unfold validate_shuffle_split. rewrite B. cbn [bind]. eexists. reflexivity.
Qed.

(** X4. A [test_size] that is not strictly between 0 and 1 makes both
    pipelines raise a ValueError once the labels are derived; nothing is
    fitted. *)
Theorem test_size_out_of_range (p : process RandomState) (df : DataFrame)
  (salary_col : string) (test_size : Q) (seed : Z) :
  (test_size <= 0 \/ 1 <= test_size)%Q ->
  (forall X y,
     college_X_y df = Ok (X, y) ->
     exists msg, college_train_test p df test_size seed = Raise (ValueError msg))
  /\ (forall X y,
        job_X_y p df salary_col = Ok (X, y) ->
        exists msg,
          job_train_test p df salary_col test_size seed
          = Raise (ValueError msg)).
Proof.
  intros R.
  assert (B : Qle_bool test_size 0 || Qle_bool 1 test_size = true).
  { apply orb_true_iff. destruct R as [R|R]; [left|right];
      now apply Qle_bool_iff. }
  split; intros X y H.
  - unfold college_train_test. rewrite H. cbn [bind fst snd].
    now apply split_and_prepare_bad_size.
  - unfold job_train_test. rewrite H. cbn [bind fst snd].
    now apply split_and_prepare_bad_size.
Qed.

(** X5. When no row has an outcome that reads as a number, every row is
    dropped, the median is NaN, and the call fails in the splitter with a
    ValueError on the empty frame. *)
Theorem no_known_outcome_rejected (p : process RandomState) (df : DataFrame)
  (salary_col : string) (test_size : Q) (seed : Z) :
  (forall raw,
     getitem df college_outcome = Ok raw -> known_outcomes raw = [] ->
     derive_target college_outcome college_label df
     = Ok (None, labelled_frame college_outcome college_label df raw)
     /\ n_rows (labelled_frame college_outcome college_label df raw) = 0
     /\ exists msg,
          college_train_test p df test_size seed = Raise (ValueError msg))
  /\ (forall raw,
        keeps_elements p -> String.eqb salary_col job_label = false ->
        getitem df salary_col = Ok raw -> known_outcomes raw = [] ->
        exists msg,
          job_train_test p df salary_col test_size seed
          = Raise (ValueError msg)).
Proof.
  split.
  - intros raw G E. split; [|split].
    + rewrite (derive_target_eq _ college_label _ _ G). now rewrite E.
    + rewrite labelled_frame_rows. unfold target_labels. now rewrite E.
    + unfold college_train_test. rewrite (college_X_y_eq df raw G).
      cbn [bind fst snd]. apply split_and_prepare_rejects.
      unfold target_labels. now rewrite E.
  - intros raw K N G E. unfold job_train_test.
    rewrite (job_X_y_eq p df salary_col raw G).
    rewrite (job_label_not_dropped p salary_col _ K N).
    cbn [bind fst snd]. apply split_and_prepare_rejects.
    unfold target_labels. now rewrite E.
Qed.

(** *** The share of rows labelled 1 *)

Lemma insert_sorted_count (m x : Q) (l : list Q) :
  count_above m (insert_sorted x l) = count_above m (x :: l).
Proof using.
  unfold count_above. induction l as [|y t IH]; [reflexivity|].
  cbn [insert_sorted]. destruct (Qle_bool x y); [reflexivity|].
  cbn [filter] in *.
  destruct (negb (Qle_bool y m)), (negb (Qle_bool x m)); cbn [length] in *; lia.
Qed.

Lemma sort_values_count (m : Q) (l : list Q) :
  count_above m (sort_values l) = count_above m l.
Proof using.
  induction l as [|x t IH]; [reflexivity|].
  cbn [sort_values fold_right]. rewrite insert_sorted_count.
  fold (sort_values t). unfold count_above in *. cbn [filter].
  destruct (negb (Qle_bool x m)); cbn [length]; now rewrite IH.
Qed.

Lemma insert_sorted_In (x y : Q) (l : list Q) :
  In y (insert_sorted x l) -> y = x \/ In y l.
Proof using.
  induction l as [|z t IH]; cbn [insert_sorted].
  - intros [<-|[]]. now left.
  - destruct (Qle_bool x z).
    + intros [<-|I]; [now left | now right].
    + intros [<-|I]; [right; now left|].
      destruct (IH I) as [->|I']; [now left | right; now right].
Qed.

Lemma insert_sorted_sorted (x : Q) (l : list Q) :
  StronglySorted Qle l -> StronglySorted Qle (insert_sorted x l).
Proof using.
  induction 1 as [|y t St IH Hy]; cbn [insert_sorted].
  - constructor; constructor.
  - destruct (Qle_bool x y) eqn:E.
    + apply Qle_bool_iff in E. constructor; [now constructor|].
      constructor; [exact E|].
      eapply Forall_impl; [|exact Hy]. intros z Hz. now apply Qle_trans with y.
    + assert (Hxy : (y <= x)%Q).
      { apply Qlt_le_weak, Qnot_le_lt. intros C.
        apply Qle_bool_iff in C. congruence. }
      constructor; [exact IH|].
      apply Forall_forall. intros z I.
      destruct (insert_sorted_In _ _ _ I) as [->|I']; [exact Hxy|].
      now apply (proj1 (Forall_forall _ _) Hy).
Qed.

Lemma sort_values_sorted (l : list Q) : StronglySorted Qle (sort_values l).
Proof using.
  induction l as [|x t IH]; [constructor|].
  cbn [sort_values fold_right]. now apply insert_sorted_sorted.
Qed.

Lemma sorted_nth_succ (s : list Q) (k : nat) :
  StronglySorted Qle s -> S k < length s ->
  (nth k s 0 <= nth (S k) s 0)%Q.
Proof using.
  intros St. revert k. induction St as [|a t St IH Ha]; intros k Hk.
  - cbn in Hk. lia.
  - destruct k as [|k].
    + cbn [nth]. destruct t as [|b t']; [cbn in Hk; lia|].
      now inversion Ha.
    + cbn [nth]. apply IH. cbn [length] in Hk. lia.
Qed.

Lemma count_above_sorted (s : list Q) (k : nat) (m : Q) :
  StronglySorted Qle s -> k < length s -> (nth k s 0 <= m)%Q ->
  count_above m s + S k <= length s.
Proof using.
  intros St. revert k. induction St as [|a t St IH Ha]; intros k Hk Hm.
  - cbn in Hk. lia.
  - assert (Ham : (a <= m)%Q).
    { destruct k as [|k]; [exact Hm|]. cbn [nth] in Hm.
      apply Qle_trans with (nth k t 0%Q); [|exact Hm].
      apply (proj1 (Forall_forall _ _) Ha). apply nth_In.
      cbn [length] in Hk. lia. }
    unfold count_above in *. cbn [filter length].
    apply Qle_bool_iff in Ham. rewrite Ham. cbn [negb].
    destruct k as [|k].
    + pose proof (filter_length_le (fun v => negb (Qle_bool v m)) t). lia.
    + cbn [nth] in Hm. cbn [length] in Hk.
      specialize (IH k (proj2 (Nat.succ_lt_mono _ _) Hk) Hm). lia.
Qed.

Lemma count_above_median (l : list Q) (m : Q) :
  median (map Some l) = Some m -> 2 * count_above m l <= length l.
Proof using.
  unfold median. rewrite observed_map_Some.
  rewrite <- (sort_values_count m l), <- (sort_values_length l).
  pose proof (sort_values_sorted l) as St.
  set (s := sort_values l) in *. set (n := length s).
  destruct (n =? 0) eqn:Z0; [discriminate|]. apply Nat.eqb_neq in Z0.
  destruct (Nat.even n) eqn:Ev; intros H; injection H as <-.
  - apply Nat.even_spec in Ev. destruct Ev as [q Hq].
    assert (Hd : n / 2 = q) by (rewrite Hq, Nat.mul_comm; now apply Nat.div_mul).
    change (fst (Nat.divmod n 1 0 1)) with (n / 2). rewrite Hd.
    assert (Hk : S (q - 1) < length s) by (fold n; lia).
    pose proof (sorted_nth_succ s (q - 1) St Hk) as Hle.
    replace (S (q - 1)) with q in Hle by lia.
    assert (Hm : (nth (q - 1) s 0 <= (nth (q - 1) s 0 + nth q s 0) / 2)%Q).
    { apply Qle_shift_div_l; [reflexivity|]. lra. }
    pose proof (count_above_sorted s (q - 1) _ St (Nat.lt_succ_l _ _ Hk) Hm).
    fold n in H. lia.
  - assert (Od : Nat.odd n = true) by (unfold Nat.odd; now rewrite Ev).
    apply Nat.odd_spec in Od. destruct Od as [q Hq].
    assert (Hd : n / 2 = q).
    { symmetry. apply (Nat.div_unique n 2 q 1); lia. }
    change (fst (Nat.divmod n 1 0 1)) with (n / 2). rewrite Hd.
    assert (Hk : q < length s) by (fold n; lia).
    pose proof (count_above_sorted s q _ St Hk (Qle_refl _)).
    fold n in H. lia.
Qed.

Lemma target_labels_ones (raw : series) :
  2 * count_label 1 (target_labels raw) <= length (target_labels raw).
Proof.
  unfold target_labels. set (vals := known_outcomes raw).
  rewrite length_map.
  destruct (median (map Some vals)) as [m|] eqn:M.
  - apply count_above_median in M.
    replace (count_label 1 _) with (count_above m vals); [exact M|].
    unfold count_label, count_above. clear M. cbn [gt].
    induction vals as [|v t IH]; [reflexivity|].
    cbn [map filter]. destruct (negb (Qle_bool v m)); cbn [float_eqb];
      [change (Qeq_bool 1 1) with true | change (Qeq_bool 1 0) with false];
      cbn [length]; now rewrite IH.
  - replace (count_label 1 _) with 0; [lia|].
    unfold count_label. clear M. cbn [gt].
    induction vals as [|v t IH]; [reflexivity|].
    cbn [map filter float_eqb]. change (Qeq_bool 1 0) with false. exact IH.
Qed.

(** X6. At most half of the rows are labelled 1, since a label is 1 only
    strictly above the median; so as soon as there is a row, some row is
    labelled 0. *)
Theorem at_most_half_labelled_one (p : process RandomState) (df : DataFrame)
  (salary_col : string) :
  (forall X y,
     college_X_y df = Ok (X, y) ->
     2 * count_label 1 y <= length y
     /\ (1 <= length y -> 1 <= count_label 0 y))
  /\ (forall X y,
        job_X_y p df salary_col = Ok (X, y) ->
        2 * count_label 1 y <= length y
        /\ (1 <= length y -> 1 <= count_label 0 y)).
Proof.
  assert (G : forall raw,
     2 * count_label 1 (target_labels raw) <= length (target_labels raw)
     /\ (1 <= length (target_labels raw) ->
         1 <= count_label 0 (target_labels raw))).
  { intros raw. pose proof (target_labels_ones raw).
    destruct (target_labels_counts raw) as [C _]. lia. }
  split; intros X y H.
  - destruct (college_X_y_labels df X y H) as [raw [_ ->]]. apply G.
  - destruct (job_X_y_labels p df salary_col X y H) as [raw [_ ->]]. apply G.
Qed.

(** *** The type router *)

Lemma lookup_In (c : string) (s : series) (l : list (string * series)) :
  lookup c l = Some s -> In (c, s) l.
Proof using.
  induction l as [|[k v] t IH]; cbn [lookup]; [discriminate|].
  destruct (String.eqb c k) eqn:E.
  - apply String.eqb_eq in E. subst k. intros H. injection H as ->. now left.
  - intros H. right. now apply IH.
Qed.

Lemma In_lookup (c : string) (s : series) (l : list (string * series)) :
  NoDup (map fst l) -> In (c, s) l -> lookup c l = Some s.
Proof using.
  induction l as [|[k v] t IH]; cbn [map fst lookup]; [intros _ []|].
  intros N I. inversion N as [|? ? Nk Nt]; subst.
  destruct I as [I|I].
  - injection I as -> ->. now rewrite String.eqb_refl.
  - destruct (String.eqb c k) eqn:E.
    + apply String.eqb_eq in E. subst k. exfalso. apply Nk.
      apply in_map_iff. exists (c, s). auto.
    + now apply IH.
Qed.

Lemma mem_num_cols (X : DataFrame) (c : string) (s : series) :
  NoDup (columns X) -> getitem X c = Ok s ->
  mem c (num_cols X) = is_numeric_dtype s.
Proof using.
  unfold getitem, columns. intros N G.
  destruct (lookup c (cols X)) as [s'|] eqn:L; [|discriminate].
  injection G as ->.
  destruct (is_numeric_dtype s) eqn:D.
  - apply mem_In. unfold num_cols. apply in_map_iff. exists (c, s).
    split; [reflexivity|]. apply filter_In. split; [now apply lookup_In | exact D].
  - apply mem_false_In. unfold num_cols. intros I. apply in_map_iff in I.
    destruct I as [[k v] [E I]]. cbn [fst] in E. subst k.
    apply filter_In in I. destruct I as [I Dv]. cbn [snd] in Dv.
    rewrite (In_lookup c v _ N I) in L. injection L as ->. congruence.
Qed.

Lemma iloc_lookup (X X' : DataFrame) (idx : list nat) (c : string) :
  iloc X idx = Ok X' ->
  n_rows X' = length idx
  /\ lookup c (cols X') = option_map (take_series idx) (lookup c (cols X)).
Proof using.
  unfold iloc. destruct (forallb _ idx); [|discriminate].
  intros H. injection H as <-. cbn [n_rows cols]. split; [reflexivity|].
  apply (lookup_map_values (take_series idx)).
Qed.

Lemma mapM_succeeds {A B : Type} (f : A -> result B) (l : list A) :
  (forall a, In a l -> succeeds (f a) = true) -> succeeds (mapM f l) = true.
Proof using.
  induction l as [|a t IH]; intros H; [reflexivity|]. cbn [mapM].
  pose proof (H a (or_introl eq_refl)) as Ha.
  destruct (f a) as [b|]; [|discriminate]. cbn [bind].
  assert (Ht : succeeds (mapM f t) = true) by (apply IH; intros; apply H; now right).
  destruct (mapM f t); [reflexivity | discriminate].
Qed.

(** X7. On a frame whose column names are distinct, as [read_csv] gives
    them, a column is in [num_cols] exactly when its dtype is numeric and in
    [cat_cols] exactly when it is not; no column is in both; and on any
    rows taken from the frame the preprocessor finds every selected column
    with the dtype its transformer needs. *)
Theorem type_router_partitions (X : DataFrame) :
  NoDup (columns X) ->
  (forall c s,
     getitem X c = Ok s ->
     mem c (num_cols X) = is_numeric_dtype s
     /\ mem c (cat_cols X) = negb (is_numeric_dtype s))
  /\ (forall c, mem c (num_cols X) && mem c (cat_cols X) = false)
  /\ (forall idx X',
        iloc X idx = Ok X' ->
        succeeds (select numeric_values X' (num_cols X)) = true
        /\ succeeds (select object_values X' (cat_cols X)) = true).
Proof using.
  intros N.
  assert (Cat : forall c, mem c (cat_cols X)
                          = in_columns c X && negb (mem c (num_cols X))).
  { intros c. unfold cat_cols. rewrite in_columns_mem.
    destruct (mem c (columns X)) eqn:I, (mem c (num_cols X)) eqn:M; cbn [andb negb].
    - apply mem_false_In. intros F. apply filter_In in F. rewrite M in F.
      destruct F; discriminate.
    - apply mem_In. apply filter_In. rewrite M. split; [now apply mem_In | reflexivity].
    - apply mem_false_In. intros F. apply filter_In in F.
      apply mem_false_In in I. exact (I (proj1 F)).
    - apply mem_false_In. intros F. apply filter_In in F.
      apply mem_false_In in I. exact (I (proj1 F)). }
  split; [|split].
  - intros c s G. pose proof (mem_num_cols X c s N G) as M. split; [exact M|].
    rewrite Cat, M, (getitem_Ok_present _ _ _ G). reflexivity.
  - intros c. rewrite Cat. destruct (mem c (num_cols X)); [|reflexivity].
    now rewrite andb_false_r.
  - intros idx X' I. split; unfold select; apply mapM_succeeds; intros c Hc.
    + apply mem_In in Hc.
      assert (P : in_columns c X = true).
      { rewrite in_columns_mem. apply mem_In. apply mem_In in Hc.
        unfold num_cols in Hc. apply in_map_iff in Hc.
        destruct Hc as [kv [<- F]]. apply filter_In in F.
        unfold columns. apply in_map. exact (proj1 F). }
      destruct (getitem_present _ _ P) as [s G].
      rewrite (mem_num_cols X c s N G) in Hc.
      unfold getitem in *. rewrite (proj2 (iloc_lookup X X' idx c I)).
      destruct (lookup c (cols X)); [|discriminate]. injection G as ->.
      destruct s; [reflexivity | discriminate].
    + apply mem_In in Hc. rewrite Cat in Hc. apply andb_true_iff in Hc.
      destruct Hc as [P M]. destruct (getitem_present _ _ P) as [s G].
      rewrite (mem_num_cols X c s N G) in M.
      unfold getitem in *. rewrite (proj2 (iloc_lookup X X' idx c I)).
      destruct (lookup c (cols X)); [|discriminate]. injection G as ->.
      destruct s; [discriminate | reflexivity].
Qed.

(** *** The shape and the cells of the returned matrices *)

Lemma hstack_length (n : nat) (blocks : list (list (list float))) :
  Forall (fun b => length b = n) blocks -> length (hstack n blocks) = n.
Proof using.
  unfold hstack. induction 1 as [|b bs Hb _ IH]; cbn [fold_right].
  - apply repeat_length.
  - rewrite map2_length, Hb, IH. apply Nat.min_id.
Qed.

Lemma hstack_finite (n : nat) (blocks : list (list (list float))) :
  Forall all_finite blocks -> all_finite (hstack n blocks).
Proof using.
  unfold hstack, all_finite. induction 1 as [|b bs Hb _ IH]; cbn [fold_right].
  - apply Forall_forall. intros row I. apply repeat_spec in I. now subst row.
  - apply (map2_Forall _ (fun row : list float => forallb is_some row = true)
             (fun row : list float => forallb is_some row = true));
      [|exact Hb|exact IH].
    cbv beta. intros r r' A B. rewrite forallb_app.
    apply andb_true_iff. split; assumption.
Qed.

Lemma imputer_transform_lengths {A : Type} (n : nat)
  (statistics : list (option A)) (X : list (list (option A))) :
  Forall (fun x => length x = n) X ->
  Forall (fun x => length x = n) (imputer_transform statistics X).
Proof using.
  intros H. revert statistics.
  induction H as [|x t Hx _ IH]; intros [|[v|] st]; cbn [imputer_transform];
    try constructor; auto.
  unfold fill. now rewrite length_map.
Qed.

Lemma mapM_Forall {A B : Type} (f : A -> result B) (P : B -> Prop)
  (l : list A) (r : list B) :
  (forall a b, In a l -> f a = Ok b -> P b) -> mapM f l = Ok r -> Forall P r.
Proof using.
  revert r. induction l as [|a t IH]; intros r H M; cbn [mapM] in M.
  - injection M as <-. constructor.
  - bind_inv M. bind_inv M. injection M as <-. constructor.
    + apply (H a); [now left | exact E].
    + apply IH; [|reflexivity]. intros a' b' I. apply H. now right.
Qed.

Lemma onehot_cell_finite (mode : handle_unknown) (cats : list string)
  (v : string) (row : list float) :
  onehot_cell mode cats v = Ok row -> forallb is_some row = true.
Proof using.
  unfold onehot_cell.
  assert (Z : forall l : list string,
             forallb is_some (map (fun _ => Some 0%Q) l) = true)
    by (induction l; [reflexivity | assumption]).
  assert (I : forallb is_some (indicator cats v) = true).
  { unfold indicator. induction cats as [|c t IH]; [reflexivity|].
    cbn [map forallb]. destruct (String.eqb v c); exact IH. }
  destruct (mem v cats); [intros H; now injection H as <-|].
  destruct mode; [discriminate|]. intros H. injection H as <-. apply Z.
Qed.

Lemma onehot_transform_blocks (mode : handle_unknown) (n : nat)
  (cats : list (list string)) (X : list (list string))
  (blocks : list (list (list float))) :
  Forall (fun x => length x = n) X ->
  onehot_transform mode cats X = Ok blocks ->
  Forall (fun b => length b = n) blocks /\ Forall all_finite blocks.
Proof using.
  intros H. revert cats blocks.
  induction H as [|x t Hx _ IH]; intros [|c ct] blocks E;
    cbn [onehot_transform] in E; try (injection E as <-; split; constructor).
  bind_inv E. bind_inv E. injection E as <-.
  destruct (IH ct _ E1) as [L F]. unfold onehot_column in E0. split; constructor; auto.
  - rewrite (mapM_length _ _ _ E0). exact Hx.
  - unfold all_finite. eapply mapM_Forall; [|exact E0].
    intros v row _ Hv. now apply onehot_cell_finite with mode c v.
Qed.

Lemma num_transform_shape (n : nat) (statistics : list (option Q))
  (scalers : list scaler) (X : list (list (option Q))) (M : list (list float)) :
  scales_nonzero scalers ->
  Forall (fun x => length x = n) X ->
  num_transform n statistics scalers X = Ok M ->
  length M = n /\ all_finite M.
Proof.
  intros S L H. unfold num_transform in H.
  assert (G : length (hstack n (map column_block
                (map2 scaler_transform scalers (imputer_transform statistics X)))) = n
              /\ all_finite (hstack n (map column_block
                (map2 scaler_transform scalers (imputer_transform statistics X))))).
  { pose proof (imputer_transform_lengths n statistics X L) as Li.
    split; [apply hstack_length | apply hstack_finite];
      apply Forall_map.
    - apply (map2_Forall _ (fun _ : scaler => True)
               (fun x : list Q => length x = n));
        [|exact (Forall_impl (fun _ => True) (fun _ _ => I) S)|exact Li].
      cbv beta. intros sc x _ Hx. unfold column_block, scaler_transform.
      now rewrite !length_map.
    - apply (map2_Forall _ (fun sc : scaler => Qeq_bool (scale_ sc) 0 = false)
               (fun x : list Q => length x = n)); [|exact S|exact Li].
      cbv beta. intros sc x Hs _. unfold all_finite, column_block, scaler_transform.
      apply Forall_map, Forall_map, Forall_forall. intros v _.
      cbn [forallb]. unfold fdiv. now rewrite Hs. }
  destruct X as [|x t].
  - injection H as <-.
    split; [apply (hstack_length n []) | apply (hstack_finite n [])]; constructor.
  - bind_inv H. bind_inv H. now injection H as <-.
Qed.

Lemma cat_transform_shape (mode : handle_unknown) (n : nat)
  (statistics : list (option string)) (cats : list (list string))
  (X : list (list (option string))) (M : list (list float)) :
  Forall (fun x => length x = n) X ->
  cat_transform mode n statistics cats X = Ok M ->
  length M = n /\ all_finite M.
Proof using.
  intros L H. unfold cat_transform in H. destruct X as [|x t].
  - injection H as <-.
    split; [apply (hstack_length n []) | apply (hstack_finite n [])]; constructor.
  - bind_inv H. bind_inv H. bind_inv H. injection H as <-.
    destruct (onehot_transform_blocks mode n cats _ _
                (imputer_transform_lengths n statistics _ L) E1) as [Lb Fb].
    split; [now apply hstack_length | now apply hstack_finite].
Qed.

Lemma select_lengths {A : Type} (cells : series -> result (list A))
  (X X' : DataFrame) (idx : list nat) (names : list string)
  (r : list (list A)) :
  (forall s xs, cells (take_series idx s) = Ok xs -> length xs = length idx) ->
  iloc X idx = Ok X' -> select cells X' names = Ok r ->
  Forall (fun x => length x = length idx) r.
Proof using.
  intros C I S. unfold select in S. eapply mapM_Forall; [|exact S].
  cbv beta. intros c xs _ H. bind_inv H. unfold getitem in E.
  rewrite (proj2 (iloc_lookup X X' idx c I)) in E.
  destruct (lookup c (cols X)) as [s|]; [|discriminate].
  injection E as <-. now apply (C s).
Qed.

Lemma preprocessor_transform_shape (nums cats : list string) (st : fitted)
  (X X' : DataFrame) (idx : list nat) (M : list (list float)) :
  scales_nonzero (num_scalers st) ->
  iloc X idx = Ok X' -> preprocessor_transform nums cats st X' = Ok M ->
  length M = length idx /\ all_finite M.
Proof.
  intros S I H. unfold preprocessor_transform in H.
  bind_inv H. bind_inv H. bind_inv H. bind_inv H. injection H as <-.
  rewrite (proj1 (iloc_lookup X X' idx EmptyString I)) in E1, E2.
  assert (Ln : Forall (fun x => length x = length idx) a).
  { eapply (select_lengths numeric_values); eauto.
    intros [xs|xs] ys Hs; [|discriminate]. injection Hs as <-. apply length_map. }
  assert (Lc : Forall (fun x => length x = length idx) a0).
  { eapply (select_lengths object_values); eauto.
    intros [xs|xs] ys Hs; [discriminate|]. injection Hs as <-. apply length_map. }
  destruct (num_transform_shape _ _ _ _ _ S Ln E1) as [N1 N2].
  destruct (cat_transform_shape _ _ _ _ _ _ Lc E2) as [C1 C2].
  split.
  - rewrite map2_length, N1, C1. apply Nat.min_id.
  - unfold all_finite in *.
    apply (map2_Forall _ (fun row : list float => forallb is_some row = true)
             (fun row : list float => forallb is_some row = true));
      [|exact N2|exact C2].
    cbv beta. intros r r' A B. rewrite forallb_app.
    apply andb_true_iff. split; assumption.
Qed.

Lemma preprocessor_fit_scales (nums cats : list string) (X : DataFrame)
  (st : fitted) :
  preprocessor_fit nums cats X = Ok st -> scales_nonzero (num_scalers st).
Proof.
  unfold preprocessor_fit. intros H.
  bind_inv H. bind_inv H. bind_inv H. bind_inv H. injection H as <-.
  cbn [num_scalers]. unfold num_fit in E1. destruct a as [|x t].
  - injection E1 as <-. constructor.
  - bind_inv E1. bind_inv E1. injection E1 as <-. cbn [snd].
    unfold scales_nonzero. apply Forall_map, Forall_forall. intros col _.
    apply scale_nonzero.
Qed.

Lemma split_and_prepare_parts (p : process RandomState) (X : DataFrame)
  (y : list float) (test_size : Q) (seed : Z) (r : prepared) :
  split_and_prepare p X y test_size seed = Ok r ->
  exists tr te X_train X_test st,
    iloc X tr = Ok X_train /\ iloc X te = Ok X_test
    /\ y_train r = iloc_values y tr /\ y_test r = iloc_values y te
    /\ preprocessor_fit (num_cols X) (cat_cols X) X_train = Ok st
    /\ preprocessor_transform (num_cols X) (cat_cols X) st X_train
       = Ok (X_train_prep r)
    /\ preprocessor_transform (num_cols X) (cat_cols X) st X_test
       = Ok (X_test_prep r).
Proof.
  unfold split_and_prepare, train_test_split. intros H.
  destruct (negb (n_rows X =? length y)); [discriminate|].
  destruct (validate_shuffle_split (n_rows X) test_size) as [sizes|]; [|discriminate].
  cbn [bind] in H.
  destruct (stratified_shuffle_split p (Some seed) y (fst sizes) (snd sizes))
    as [[tr te]|]; [|discriminate].
  cbn [bind fst snd] in H.
  destruct (iloc X tr) as [X_train|] eqn:Itr; [|discriminate]. cbn [bind] in H.
  destruct (iloc X te) as [X_test|] eqn:Ite; [|discriminate]. cbn [bind] in H.
  unfold preprocessor_fit_transform in H.
  destruct (preprocessor_fit (num_cols X) (cat_cols X) X_train)
    as [st|] eqn:F; [|discriminate].
  cbn [bind] in H.
  destruct (preprocessor_transform (num_cols X) (cat_cols X) st X_train)
    as [M|] eqn:T; [|discriminate].
  cbn [bind fst snd] in H. bind_inv H. injection H as <-.
  exists tr, te, X_train, X_test, st. cbn. auto 10.
Qed.

(** X8. When a pipeline returns, each matrix has one row per label of its
    partition, and every cell of both matrices is a finite number: no
    missing value and no division by zero survives the preprocessor. *)
Theorem outputs_aligned_and_finite (p : process RandomState) (df : DataFrame)
  (salary_col : string) (test_size : Q) (seed : Z) :
  (forall r,
     college_train_test p df test_size seed = Ok r ->
     length (X_train_prep r) = length (y_train r)
     /\ length (X_test_prep r) = length (y_test r)
     /\ all_finite (X_train_prep r) /\ all_finite (X_test_prep r))
  /\ (forall r,
        job_train_test p df salary_col test_size seed = Ok r ->
        length (X_train_prep r) = length (y_train r)
        /\ length (X_test_prep r) = length (y_test r)
        /\ all_finite (X_train_prep r) /\ all_finite (X_test_prep r)).
Proof.
  assert (G : forall X y r,
     split_and_prepare p X y test_size seed = Ok r ->
     length (X_train_prep r) = length (y_train r)
     /\ length (X_test_prep r) = length (y_test r)
     /\ all_finite (X_train_prep r) /\ all_finite (X_test_prep r)).
  { intros X y r H.
    destruct (split_and_prepare_parts _ _ _ _ _ _ H)
      as [tr [te [Xtr [Xte [st [Itr [Ite [Ytr [Yte [F [Ttr Tte]]]]]]]]]]].
    pose proof (preprocessor_fit_scales _ _ _ _ F) as S.
    destruct (preprocessor_transform_shape _ _ _ _ _ _ _ S Itr Ttr) as [A1 A2].
    destruct (preprocessor_transform_shape _ _ _ _ _ _ _ S Ite Tte) as [B1 B2].
    rewrite Ytr, Yte. unfold iloc_values. rewrite !length_map. auto. }
  split; intros r H.
  - unfold college_train_test in H. bind_inv H. eapply G; eassumption.
  - unfold job_train_test in H. bind_inv H. eapply G; eassumption.
Qed.

(** *** The fitted categories and the one-hot rows *)

Lemma ltb_compare (a b : string) : String.ltb a b = true <-> String.compare a b = Lt.
Proof using. unfold String.ltb. destruct (String.compare a b); split; congruence. Qed.

Lemma string_compare_refl (a : string) : String.compare a a = Eq.
Proof using.
  induction a as [|x a IH]; [reflexivity|]. cbn [String.compare].
  unfold Ascii.compare. now rewrite N.compare_refl.
Qed.

Lemma string_compare_trans (a b c : string) :
  String.compare a b = Lt -> String.compare b c = Lt -> String.compare a c = Lt.
Proof using.
  revert b c. induction a as [|x a IH]; intros [|y b] [|z c]; cbn [String.compare];
    try discriminate; try reflexivity.
  unfold Ascii.compare.
  destruct (N.compare_spec (N_of_ascii x) (N_of_ascii y)) as [Exy|Lxy|Gxy];
    try discriminate.
  - rewrite Exy. destruct (N_of_ascii y ?= N_of_ascii z)%N; try discriminate; auto.
    intros H1 H2. now apply IH with b.
  - destruct (N.compare_spec (N_of_ascii y) (N_of_ascii z)) as [Eyz|Lyz|Gyz];
      try discriminate; intros _ _.
    + rewrite <- Eyz. now apply N.compare_lt_iff in Lxy as ->.
    + assert (L : (N_of_ascii x < N_of_ascii z)%N) by (eapply N.lt_trans; eassumption).
      now apply N.compare_lt_iff in L as ->.
Qed.

Lemma str_lt_irrefl (a : string) : ~ str_lt a a.
Proof using.
  unfold str_lt. rewrite ltb_compare, string_compare_refl. discriminate.
Qed.

Lemma str_lt_trans (a b c : string) : str_lt a b -> str_lt b c -> str_lt a c.
Proof using. unfold str_lt. rewrite !ltb_compare. apply string_compare_trans. Qed.

Lemma insert_category_In (v w : string) (l : list string) :
  In w (insert_category v l) <-> w = v \/ In w l.
Proof using.
  induction l as [|c t IH]; cbn [insert_category].
  - cbn [In]. split; [intros [E|[]]; left; congruence | intros [E|[]]; left; congruence].
  - destruct (String.eqb v c) eqn:Ev.
    + apply String.eqb_eq in Ev. subst c. cbn [In]. split.
      * intros [E|I]; [left; congruence | right; now right].
      * intros [E|[E|I]]; [left; congruence | now left | now right].
    + destruct (String.ltb v c); cbn [In].
      * split.
        -- intros [E|[E|I]]; [left; congruence | right; now left | right; now right].
        -- intros [E|[E|I]]; [left; congruence | right; now left | right; now right].
      * rewrite IH. split.
        -- intros [E|[E|I]]; [right; now left | now left | right; now right].
        -- intros [E|[E|I]]; [right; now left | now left | right; now right].
Qed.

Lemma insert_category_sorted (v : string) (l : list string) :
  StronglySorted str_lt l -> StronglySorted str_lt (insert_category v l).
Proof using.
  induction 1 as [|c t St IH Hc]; cbn [insert_category].
  - constructor; constructor.
  - destruct (String.eqb v c) eqn:E; [now constructor|].
    destruct (String.ltb v c) eqn:Lt.
    + constructor; [now constructor|]. constructor; [exact Lt|].
      eapply Forall_impl; [|exact Hc]. intros w Hw. now apply str_lt_trans with c.
    + assert (Hcv : str_lt c v).
      { unfold str_lt. apply ltb_compare. rewrite String.compare_antisym.
        destruct (String.compare v c) eqn:C; [| |reflexivity].
        - apply String.compare_eq_iff in C. subst c.
          now rewrite String.eqb_refl in E.
        - apply ltb_compare in C. congruence. }
      constructor; [exact IH|]. apply Forall_forall. intros w I.
      apply insert_category_In in I. destruct I as [->|I]; [exact Hcv|].
      now apply (proj1 (Forall_forall _ _) Hc).
Qed.

Lemma categories_sorted (x : list string) : StronglySorted str_lt (categories x).
Proof using.
  induction x as [|v t IH]; [constructor|].
  cbn [categories fold_right]. now apply insert_category_sorted.
Qed.

Lemma categories_In (x : list string) (w : string) :
  In w (categories x) <-> In w x.
Proof using.
  induction x as [|v t IH]; [reflexivity|].
  cbn [categories fold_right In]. rewrite insert_category_In.
  fold (categories t). rewrite IH.
  split; (intros [E|I]; [left; congruence | now right]).
Qed.

Lemma sorted_NoDup (l : list string) : StronglySorted str_lt l -> NoDup l.
Proof using.
  induction 1 as [|c t St IH Hc]; constructor; [|exact IH].
  intros I. apply (str_lt_irrefl c). now apply (proj1 (Forall_forall _ _) Hc).
Qed.

Lemma indicator_counts (cats : list string) (v : string) :
  count_label 1 (indicator cats v) = count_eq v cats
  /\ count_label 1 (indicator cats v) + count_label 0 (indicator cats v)
     = length cats.
Proof using.
  unfold count_label, count_eq, indicator.
  induction cats as [|c t [IH1 IH2]]; [split; reflexivity|].
  cbn [map filter]. destruct (String.eqb v c); cbn [float_eqb];
    change (Qeq_bool 1 1) with true; change (Qeq_bool 0 0) with true;
    change (Qeq_bool 1 0) with false; change (Qeq_bool 0 1) with false;
    cbn [length]; split; lia.
Qed.

Lemma count_eq_NoDup (l : list string) (v : string) :
  NoDup l -> In v l -> count_eq v l = 1.
Proof using.
  unfold count_eq. induction 1 as [|c t Nc Nt IH]; [intros []|].
  cbn [filter In]. intros [->|I].
  - rewrite String.eqb_refl. cbn [length]. f_equal.
    clear IH Nt. induction t as [|w t IH]; [reflexivity|].
    cbn [filter]. destruct (String.eqb v w) eqn:E.
    + apply String.eqb_eq in E. subst w. exfalso. apply Nc. now left.
    + apply IH. intros I. apply Nc. now right.
  - destruct (String.eqb v c) eqn:E; [|now apply IH].
    apply String.eqb_eq in E. subst c. contradiction.
Qed.

(** X9. The categories fitted on a column are its distinct values in
    increasing order, and a value of that column is encoded as a row with
    exactly one 1, whatever the unknown-value policy. *)
Theorem fitted_value_is_one_hot (mode : handle_unknown) (x : list string)
  (v : string) :
  In v x ->
  StronglySorted str_lt (categories x)
  /\ NoDup (categories x)
  /\ (forall w, In w (categories x) <-> In w x)
  /\ onehot_cell mode (categories x) v = Ok (indicator (categories x) v)
  /\ count_label 1 (indicator (categories x) v) = 1
  /\ count_label 0 (indicator (categories x) v) + 1 = length (categories x).
Proof using.
  intros I.
  pose proof (categories_sorted x) as St.
  pose proof (sorted_NoDup _ St) as Nd.
  assert (Ic : In v (categories x)) by now apply categories_In.
  destruct (indicator_counts (categories x) v) as [C1 C2].
  rewrite (count_eq_NoDup _ _ Nd Ic) in C1.
  split; [exact St|]. split; [exact Nd|].
  split; [intros w; apply categories_In|].
  split; [unfold onehot_cell; now rewrite (proj2 (mem_In _ _) Ic)|].
  split; [exact C1 | lia].
Qed.

(** *** The imputation values *)

Lemma most_frequent_fold (vals seen rest : list string) (acc : option string) :
  match acc with
  | None => seen = []
  | Some b =>
      In b seen
      /\ forall w, In w seen ->
           count_eq w vals <= count_eq b vals
           /\ (count_eq w vals = count_eq b vals -> String.ltb w b = false)
  end ->
  match
    fold_left
      (fun best v =>
         match best with
         | None => Some v
         | Some b =>
             let cb := count_eq b vals in
             let cv := count_eq v vals in
             if (cb <? cv) || ((cb =? cv) && String.ltb v b)
             then Some v else Some b
         end)
      rest acc
  with
  | None => (seen ++ rest)%list = []
  | Some b =>
      In b (seen ++ rest)%list
      /\ forall w, In w (seen ++ rest)%list ->
           count_eq w vals <= count_eq b vals
           /\ (count_eq w vals = count_eq b vals -> String.ltb w b = false)
  end.
Proof using.
  revert seen acc. induction rest as [|v rest IH]; intros seen acc Inv.
  - cbn [fold_left]. rewrite app_nil_r. exact Inv.
  - cbn [fold_left].
    replace (seen ++ v :: rest)%list with ((seen ++ [v]) ++ rest)%list
      by (rewrite <- app_assoc; reflexivity).
    apply IH. clear IH.
    assert (Irr : String.ltb v v = false).
    { destruct (String.ltb v v) eqn:E; [|reflexivity].
      exfalso. exact (str_lt_irrefl v E). }
    destruct acc as [b|].
    + destruct Inv as [Ib Hb]. cbv zeta.
      destruct ((count_eq b vals <? count_eq v vals)
                || ((count_eq b vals =? count_eq v vals) && String.ltb v b)) eqn:C.
      * split; [apply in_or_app; right; now left|].
        intros w Iw. apply in_app_or in Iw. destruct Iw as [Iw|[<-|[]]].
        -- destruct (Hb w Iw) as [Le Tie].
           apply orb_true_iff in C. destruct C as [C|C].
           ++ apply Nat.ltb_lt in C. split; [lia|]. intros E. lia.
           ++ apply andb_true_iff in C. destruct C as [C Lt].
              apply Nat.eqb_eq in C. split; [lia|]. intros E.
              destruct (String.ltb w v) eqn:Lw; [|reflexivity].
              assert (Lwb : str_lt w b) by (now apply str_lt_trans with v).
              unfold str_lt in Lwb. rewrite Tie in Lwb by lia. discriminate.
        -- split; [lia|]. intros _. exact Irr.
      * split; [apply in_or_app; now left|].
        intros w Iw. apply in_app_or in Iw. destruct Iw as [Iw|[<-|[]]].
        -- now apply Hb.
        -- apply orb_false_iff in C. destruct C as [C1 C2].
           apply Nat.ltb_ge in C1. split; [exact C1|]. intros E.
           apply andb_false_iff in C2. destruct C2 as [C2|C2]; [|exact C2].
           apply Nat.eqb_neq in C2. lia.
    + subst seen. cbn [app]. split; [now left|].
      intros w [<-|[]]. split; [lia|]. intros _. exact Irr.
Qed.

Lemma observed_In {A : Type} (xs : list (option A)) (v : A) :
  In v (observed xs) <-> In (Some v) xs.
Proof using.
  induction xs as [|[a|] t IH]; cbn [observed In].
  - reflexivity.
  - rewrite IH. split; (intros [E|I]; [left; congruence | now right]).
  - rewrite IH. split; [intros I; now right | intros [E|I]; [discriminate | exact I]].
Qed.

(** X10. The value the categorical imputer fills in is a value of the
    fitted column that no other value outnumbers, the first in the order of
    text among those as frequent; there is none exactly when the column
    holds no value at all, the case in which the column is discarded. *)
Theorem most_frequent_is_a_mode (xs : list (option string)) :
  match most_frequent xs with
  | None => observed xs = []
  | Some b =>
      In (Some b) xs
      /\ forall w, In (Some w) xs ->
           count_eq w (observed xs) <= count_eq b (observed xs)
           /\ (count_eq w (observed xs) = count_eq b (observed xs) ->
               String.ltb w b = false)
  end.
Proof using.
  unfold most_frequent.
  pose proof (most_frequent_fold (observed xs) [] (observed xs) None eq_refl) as H.
  cbn [app] in H. cbv zeta.
  destruct (fold_left _ (observed xs) None) as [b|]; [|exact H].
  destruct H as [Ib Hb]. split; [now apply observed_In|].
  intros w Iw. apply Hb. now apply observed_In.
Qed.

(** *** Standardisation *)

Lemma Qsum_scaled (m s : Q) (x : list Q) :
  (Qsum (map (fun v => (v - m) / s) x)
   == (Qsum x - inject_Z (Z.of_nat (length x)) * m) / s)%Q.
Proof using.
  induction x as [|v t IH].
  - cbn. unfold Qdiv. ring.
  - cbn [map Qsum fold_right length]. fold (Qsum (map (fun v => (v - m) / s)%Q t)).
    fold (Qsum t). rewrite IH. rewrite Nat2Z.inj_succ. unfold Z.succ.
    rewrite inject_Z_plus. unfold Qdiv. ring.
Qed.

Lemma scaler_transform_values (x t : list Q) :
  observed (scaler_transform (scaler_fit x) t)
  = map (fun v => ((v - mean x) / scale_ (scaler_fit x))%Q) t.
Proof.
  unfold scaler_transform. induction t as [|v t IH]; [reflexivity|].
  cbn [map]. unfold fdiv at 1. rewrite scale_nonzero. cbn [observed mean_ scaler_fit].
  f_equal. exact IH.
Qed.

Lemma scaled_sum_zero (x : list Q) :
  (Qsum (map (fun v => ((v - mean x) / scale_ (scaler_fit x))%Q) x) == 0)%Q.
Proof.
  rewrite Qsum_scaled. unfold mean.
  destruct x as [|v t].
  - cbn. unfold Qdiv. ring.
  - set (n := inject_Z (Z.of_nat (length (v :: t)))).
    assert (Hn : ~ (n == 0)%Q).
    { unfold n. cbn [length]. rewrite Nat2Z.inj_succ. unfold Qeq. cbn. lia. }
    assert (E : (Qsum (v :: t) - n * (Qsum (v :: t) / n) == 0)%Q) by (field; exact Hn).
    rewrite E. unfold Qdiv. ring.
Qed.

(** X11. The values a scaler returns for the column it was fitted on add
    up to zero: the standardised train column has mean zero. *)
Theorem standardised_train_column_sums_to_zero (x : list Q) :
  length (observed (scaler_transform (scaler_fit x) x)) = length x
  /\ (Qsum (observed (scaler_transform (scaler_fit x) x)) == 0)%Q.
Proof.
  rewrite scaler_transform_values. split; [apply length_map|].
  apply scaled_sum_zero.
Qed.



(** *** Both classes and a small test partition *)

Lemma binary_length (u : list float) :
  Forall binary u -> length u = count_label 0 u + count_label 1 u.
Proof using.
  unfold count_label. induction 1 as [|l t [->| ->] _ IH]; [reflexivity| |];
    cbn [filter float_eqb];
    change (Qeq_bool 0 0) with true; change (Qeq_bool 1 1) with true;
    change (Qeq_bool 0 1) with false; change (Qeq_bool 1 0) with false;
    cbn [length]; lia.
Qed.

Lemma binary_filter_out (b : float) (u : list float) :
  binary b -> Forall binary u ->
  Forall binary (filter (fun w => negb (float_eqb b w)) u)
  /\ count_label 0 (filter (fun w => negb (float_eqb b w)) u)
     = (if float_eqb b (Some 0%Q) then 0 else count_label 0 u)
  /\ count_label 1 (filter (fun w => negb (float_eqb b w)) u)
     = (if float_eqb b (Some 1%Q) then 0 else count_label 1 u).
Proof using.
  intros Hb. unfold count_label.
  induction 1 as [|l t Hl _ [IH1 [IH2 IH3]]].
  - cbn. destruct (float_eqb b (Some 0%Q)), (float_eqb b (Some 1%Q)); auto.
  - destruct Hb as [-> | ->], Hl as [-> | ->];
      cbn [filter float_eqb negb] in *;
      change (Qeq_bool 0 0) with true in *; change (Qeq_bool 1 1) with true in *;
      change (Qeq_bool 0 1) with false in *; change (Qeq_bool 1 0) with false in *;
      cbn [filter float_eqb negb length] in *;
      change (Qeq_bool 0 0) with true in *; change (Qeq_bool 1 1) with true in *;
      change (Qeq_bool 0 1) with false in *; change (Qeq_bool 1 0) with false in *;
      cbn [length];
      repeat split; try assumption; try (constructor; [|assumption]);
      try (now left); try (now right); try lia.
Qed.

Lemma unique_binary (y : list float) :
  Forall binary y ->
  Forall binary (unique y)
  /\ count_label 0 (unique y) = Nat.min 1 (count_label 0 y)
  /\ count_label 1 (unique y) = Nat.min 1 (count_label 1 y).
Proof using.
  induction 1 as [|l t Hl Ht [IH1 [IH2 IH3]]]; [repeat split; constructor|].
  cbn [unique].
  destruct (binary_filter_out l (unique t) Hl IH1) as [F1 [F2 F3]].
  split; [now constructor|].
  unfold count_label in *. cbn [filter].
  destruct Hl as [-> | ->]; cbn [float_eqb] in *;
    change (Qeq_bool 0 0) with true in *; change (Qeq_bool 1 1) with true in *;
    change (Qeq_bool 0 1) with false in *; change (Qeq_bool 1 0) with false in *;
    cbn [length]; rewrite ?F2, ?F3, ?IH2, ?IH3; split; lia.
Qed.

Lemma target_labels_binary (raw : series) : Forall binary (target_labels raw).
Proof using.
  unfold target_labels. apply Forall_map, Forall_forall. intros v _.
  destruct (gt (Some v) _); [now right | now left].
Qed.

Lemma split_and_prepare_few_test_rows (p : process RandomState) (X : DataFrame)
  (raw : series) (test_size : Q) (seed : Z) :
  1 <= count_label 1 (target_labels raw) ->
  requested_test_rows (n_rows X) test_size < 2 ->
  exists msg,
    split_and_prepare p X (target_labels raw) test_size seed
    = Raise (ValueError msg).
Proof.
  intros C1 T. unfold split_and_prepare, train_test_split.
  destruct (negb (n_rows X =? length (target_labels raw)));
    [eexists; reflexivity|].
  unfold validate_shuffle_split. fold (requested_test_rows (n_rows X) test_size).
  destruct (Qle_bool test_size 0 || Qle_bool 1 test_size);
    [eexists; reflexivity|]. cbv zeta.
  destruct (n_rows X - requested_test_rows (n_rows X) test_size =? 0);
    [eexists; reflexivity|].
  cbn [bind fst snd]. unfold stratified_shuffle_split.
  destruct (existsb _ (class_counts (target_labels raw)));
    [eexists; reflexivity|].
  assert (L : length (class_counts (target_labels raw)) = 2).
  { unfold class_counts. rewrite length_map.
    destruct (unique_binary _ (target_labels_binary raw)) as [B [U0 U1]].
    rewrite (binary_length _ B), U0, U1.
    pose proof (target_labels_ones raw).
    destruct (target_labels_counts raw) as [S _]. lia. }
  rewrite L.
  destruct (_ <? 2); [eexists; reflexivity|].
  destruct (requested_test_rows (n_rows X) test_size <? 2) eqn:E;
    [eexists; reflexivity|].
  apply Nat.ltb_ge in E. lia.
Qed.

Lemma X_y_rows (p : process RandomState) (df : DataFrame) (salary_col : string) :
  (forall X y, college_X_y df = Ok (X, y) -> n_rows X = length y)
  /\ (forall X y, job_X_y p df salary_col = Ok (X, y) -> n_rows X = length y).
Proof.
  split; intros X y H.
  - destruct (college_X_y_labels df X y H) as [raw [G ->]].
    rewrite (college_X_y_eq df raw G) in H. injection H as <-.
    cbn [features_frame n_rows]. apply labelled_frame_rows.
  - destruct (job_X_y_labels p df salary_col X y H) as [raw [G ->]].
    rewrite (job_X_y_eq p df salary_col raw G) in H.
    destruct (mem job_label _); [discriminate|]. injection H as <-.
    cbn [features_frame n_rows]. apply labelled_frame_rows.
Qed.

(** X13. When some row is labelled 1, both classes are present, and the
    stratified splitter needs two test rows at least: a call whose
    [test_size] asks for fewer, [ceil(test_size * rows) < 2], raises a
    ValueError. *)
Theorem two_classes_need_two_test_rows (p : process RandomState) (df : DataFrame)
  (salary_col : string) (test_size : Q) (seed : Z) :
  (forall X y,
     college_X_y df = Ok (X, y) -> 1 <= count_label 1 y ->
     requested_test_rows (length y) test_size < 2 ->
     exists msg, college_train_test p df test_size seed = Raise (ValueError msg))
  /\ (forall X y,
        job_X_y p df salary_col = Ok (X, y) -> 1 <= count_label 1 y ->
        requested_test_rows (length y) test_size < 2 ->
        exists msg,
          job_train_test p df salary_col test_size seed
          = Raise (ValueError msg)).
Proof.
  split; intros X y H C T.
  - pose proof (proj1 (X_y_rows p df salary_col) X y H) as R.
    destruct (college_X_y_labels df X y H) as [raw [_ ->]].
    unfold college_train_test. rewrite H. cbn [bind fst snd].
    apply split_and_prepare_few_test_rows; [exact C | now rewrite R].
  - pose proof (proj2 (X_y_rows p df salary_col) X y H) as R.
    destruct (job_X_y_labels p df salary_col X y H) as [raw [_ ->]].
    unfold job_train_test. rewrite H. cbn [bind fst snd].
    apply split_and_prepare_few_test_rows; [exact C | now rewrite R].
Qed.

(** ** The code against the specification's target deriver *)

Lemma known_rows_spec (raw : series) : known_rows raw = spec_has_outcome raw.
Proof.
  unfold known_rows. destruct raw as [xs|xs]; cbn [coerce_cells spec_has_outcome].
  - apply map_ext. intros [x|]; reflexivity.
  - rewrite map_map. apply map_ext. intros [t|]; reflexivity.
Qed.










(** Two values of the same rank are equal as numbers, so the median of
    the specification is one number. *)
Lemma has_rank_unique (vals : list Q) (k : nat) (a b : Q) :
  has_rank k a vals -> has_rank k b vals -> (a == b)%Q.
Proof using.
  assert (D : forall x y l, (x < y)%Q -> count_le x l + count_ge y l <= length l).
  { intros x y l Hxy. unfold count_le, count_ge.
    induction l as [|v t IH]; [reflexivity|]. cbn [filter length].
    destruct (Qle_bool v x) eqn:A, (Qle_bool y v) eqn:B; cbn [length]; try lia.
    apply Qle_bool_iff in A, B. exfalso.
    apply (Qlt_irrefl x). apply Qlt_le_trans with y; [exact Hxy|].
    now apply Qle_trans with v. }
  intros [_ [A1 A2]] [_ [B1 B2]].
  destruct (Q_dec a b) as [[Lt|Gt]|Eq]; [| |exact Eq]; exfalso.
  - pose proof (D a b vals Lt). lia.
  - pose proof (D b a vals Gt). lia.
Qed.


Lemma train_test_split_inv (p : process RandomState) (X : DataFrame)
  (y : list float) (test_size : Q) (seed : Z)
  (X_train X_test : DataFrame) (y_tr y_te : list float) :
  train_test_split p X y test_size (Some seed) = Ok (X_train, X_test, y_tr, y_te) ->
  exists n_train n_test,
    validate_shuffle_split (n_rows X) test_size = Ok (n_train, n_test)
    /\ iloc X (fst (stratified_indices (seeded seed) y n_train n_test))
       = Ok X_train
    /\ iloc X (snd (stratified_indices (seeded seed) y n_train n_test))
       = Ok X_test
    /\ y_tr = iloc_values y
                (fst (stratified_indices (seeded seed) y n_train n_test))
    /\ y_te = iloc_values y
                (snd (stratified_indices (seeded seed) y n_train n_test)).
Proof.
  unfold train_test_split. intros H.
  destruct (negb (n_rows X =? length y)); [discriminate|].
  destruct (validate_shuffle_split (n_rows X) test_size) as [[n_train n_test]|];
    [|discriminate].
  cbn [bind fst snd] in H. unfold stratified_shuffle_split in H.
  destruct (existsb _ (class_counts y)); [discriminate|].
  destruct (n_train <? _); [discriminate|].
  destruct (n_test <? _); [discriminate|].
  cbn [bind check_random_state] in H.
  set (idx := stratified_indices (seeded seed) y n_train n_test) in *.
  destruct (iloc X (fst idx)) as [Xtr|] eqn:Itr; [|discriminate]. cbn [bind] in H.
  destruct (iloc X (snd idx)) as [Xte|] eqn:Ite; [|discriminate]. cbn [bind] in H.
  injection H as <- <- <- <-. exists n_train, n_test. auto.
Qed.



Lemma split_and_prepare_inv (p : process RandomState) (X : DataFrame)
  (y : list float) (test_size : Q) (seed : Z) (r : prepared) :
  split_and_prepare p X y test_size seed = Ok r ->
  exists X_train X_test st,
    train_test_split p X y test_size (Some seed)
    = Ok (X_train, X_test, y_train r, y_test r)
    /\ preprocessor_fit (num_cols X) (cat_cols X) X_train = Ok st
    /\ preprocessor_transform (num_cols X) (cat_cols X) st X_train
       = Ok (X_train_prep r)
    /\ preprocessor_transform (num_cols X) (cat_cols X) st X_test
       = Ok (X_test_prep r).
Proof.
  unfold split_and_prepare. intros H.
  destruct (train_test_split p X y test_size (Some seed))
    as [[[[X_train X_test] y_tr] y_te]|]; [|discriminate].
  cbn [bind] in H. unfold preprocessor_fit_transform in H.
  destruct (preprocessor_fit (num_cols X) (cat_cols X) X_train)
    as [st|] eqn:F; [|discriminate].
  cbn [bind] in H.
  destruct (preprocessor_transform (num_cols X) (cat_cols X) st X_train)
    as [M|] eqn:T; [|discriminate].
  cbn [bind fst snd] in H. bind_inv H. injection H as <-.
  exists X_train, X_test, st. cbn. auto.
Qed.





(** ** The leakage filters on the returned matrices *)

Lemma filter_fuse {A : Type} (f g : A -> bool) (l : list A) :
  filter f (filter g l) = filter (fun a => f a && g a) l.
Proof using.
  induction l as [|a t IH]; [reflexivity|]. cbn [filter].
  destruct (g a); cbn [filter]; [destruct (f a)|rewrite andb_false_r];
    cbn [andb]; now rewrite IH.
Qed.

Lemma filter_assign_out (P : string -> bool) (c : string) (s : series)
  (l : list (string * series)) :
  P c = false ->
  filter (fun kv => P (fst kv)) (assign c s l) = filter (fun kv => P (fst kv)) l.
Proof using.
  intros N. induction l as [|[k v] t IH]; cbn [assign filter fst].
  - now rewrite N.
  - destruct (String.eqb c k) eqn:E.
    + apply String.eqb_eq in E. subst k. cbn [filter fst]. now rewrite N.
    + cbn [filter fst]. now rewrite IH.
Qed.

Lemma filter_map_values (P : string -> bool) (f : series -> series)
  (l : list (string * series)) :
  filter (fun kv => P (fst kv)) (map (fun kv => (fst kv, f (snd kv))) l)
  = map (fun kv => (fst kv, f (snd kv))) (filter (fun kv => P (fst kv)) l).
Proof using.
  induction l as [|[k v] t IH]; [reflexivity|]. cbn [map filter fst snd].
  destruct (P k); cbn [map fst snd]; now rewrite IH.
Qed.

Lemma in_cols_in_columns (kv : string * series) (df : DataFrame) :
  In kv (cols df) -> in_columns (fst kv) df = true.
Proof using.
  intros I. rewrite in_columns_mem. apply mem_In. unfold columns.
  now apply in_map.
Qed.

(** The feature frame written on the input frame: the columns that are
    neither the label nor dropped, each restricted to the rows that have an
    outcome. *)
Lemma features_frame_normal (outcome label : string) (df : DataFrame)
  (raw : series) (dropped : list string) (D : string -> bool) :
  D outcome = true ->
  (forall c, in_columns c (labelled_frame outcome label df raw) = true ->
             mem c dropped = D c) ->
  features_frame label (labelled_frame outcome label df raw) dropped
  = mkDataFrame (count_true (spec_has_outcome raw))
      (map (fun kv => (fst kv, keep_series (spec_has_outcome raw) (snd kv)))
         (filter (fun kv => negb (String.eqb (fst kv) label))
            (kept_columns (fun c => negb (D c)) df))).
Proof.
  intros Do Hd. unfold features_frame, kept_columns.
  set (L := labelled_frame outcome label df raw) in *.
  assert (R : n_rows L = count_true (spec_has_outcome raw)).
  { unfold L. rewrite labelled_frame_rows, <- known_rows_spec.
    unfold known_rows. rewrite count_true_notna.
    unfold target_labels, known_outcomes. now rewrite length_map. }
  rewrite R. f_equal.
  rewrite (filter_ext_in (fun kv => negb (mem (fst kv) dropped))
             (fun kv => negb (D (fst kv))) (cols L))
    by (intros kv I; now rewrite (Hd _ (in_cols_in_columns kv L I))).
  rewrite (filter_ext (fun kv => negb (mem (fst kv) [label]))
             (fun kv => negb (String.eqb (fst kv) label)))
    by (intros kv; cbn [mem existsb]; now rewrite orb_false_r).
  rewrite !(filter_fuse (fun kv : string * series => negb (String.eqb (fst kv) label))).
  unfold L, labelled_frame. cbn [cols].
  rewrite (filter_assign_out
             (fun c => negb (String.eqb c label) && negb (D c)) label)
    by (now rewrite String.eqb_refl).
  rewrite (filter_map_values
             (fun c => negb (String.eqb c label) && negb (D c))
             (keep_series (known_rows raw))).
  rewrite (filter_assign_out
             (fun c => negb (String.eqb c label) && negb (D c)) outcome)
    by (rewrite Do; now rewrite andb_false_r).
  now rewrite known_rows_spec.
Qed.

Lemma college_dropped_mem (L : DataFrame) (c : string) :
  in_columns c L = true ->
  mem c (college_dropped L) = mem c college_drop_cols.
Proof.
  intros P. unfold college_dropped.
  destruct (mem c college_drop_cols) eqn:M.
  - apply mem_In. apply filter_In. split; [now apply mem_In | exact P].
  - now apply mem_filter_subset.
Qed.

Lemma job_dropped_mem (p : process RandomState) (salary_col : string)
  (L : DataFrame) (c : string) :
  keeps_elements p -> in_columns c L = true ->
  mem c (set_order p (job_drop_cols salary_col L))
  = job_dropped_name salary_col c.
Proof.
  intros K P. unfold job_dropped_name.
  destruct (String.eqb c salary_col) eqn:E; cbn [orb].
  - apply String.eqb_eq in E. subst c. apply mem_In. apply K.
    unfold job_drop_cols. now left.
  - destruct (mem (lower c) placement_words) eqn:W.
    + apply mem_In. apply K. unfold job_drop_cols. right.
      apply filter_In. split; [|exact W].
      apply mem_In. now rewrite <- in_columns_mem.
    + apply mem_false_In. intros I. apply (proj1 (K _ _)) in I.
      unfold job_drop_cols in I. apply in_inv in I. destruct I as [I|I].
      * subst c. now rewrite String.eqb_refl in E.
      * apply filter_In in I. destruct I as [_ I].
        unfold placement_words in W. congruence.
Qed.

Lemma college_X_y_normal (df : DataFrame) (raw : series) :
  getitem df college_outcome = Ok raw ->
  college_X_y df
  = Ok (mkDataFrame (count_true (spec_has_outcome raw))
          (map (fun kv => (fst kv, keep_series (spec_has_outcome raw) (snd kv)))
             (filter (fun kv => negb (String.eqb (fst kv) college_label))
                (kept_columns college_kept df))),
        target_labels raw).
Proof.
  intros G. rewrite (college_X_y_eq df raw G). cbv zeta. do 2 f_equal.
  apply (features_frame_normal college_outcome college_label df raw _
           (fun c => mem c college_drop_cols)); [reflexivity|].
  intros c P. now apply college_dropped_mem.
Qed.

Lemma job_X_y_normal (p : process RandomState) (df : DataFrame)
  (salary_col : string) (raw : series) :
  keeps_elements p -> getitem df salary_col = Ok raw ->
  job_X_y p df salary_col
  = if String.eqb salary_col job_label then Raise (KeyError job_label)
    else Ok (mkDataFrame (count_true (spec_has_outcome raw))
               (map (fun kv => (fst kv, keep_series (spec_has_outcome raw) (snd kv)))
                  (filter (fun kv => negb (String.eqb (fst kv) job_label))
                     (kept_columns (job_kept salary_col) df))),
             target_labels raw).
Proof.
  intros K G. rewrite (job_X_y_eq p df salary_col raw G). cbv zeta.
  set (L := labelled_frame salary_col job_label df raw).
  assert (PL : in_columns job_label L = true).
  { rewrite lookup_in_columns. unfold L. now rewrite labelled_frame_label. }
  rewrite (job_dropped_mem p salary_col L job_label K PL).
  unfold job_dropped_name.
  replace (mem (lower job_label) placement_words) with false by reflexivity.
  rewrite orb_false_r. rewrite (String.eqb_sym job_label salary_col).
  destruct (String.eqb salary_col job_label); [reflexivity|].
  do 2 f_equal.
  apply (features_frame_normal salary_col job_label df raw _
           (job_dropped_name salary_col)).
  - unfold job_dropped_name. now rewrite String.eqb_refl.
  - intros c P. now apply job_dropped_mem.
Qed.

Lemma in_columns_normal (kept : string -> bool) (label : string)
  (df : DataFrame) (n : nat) (f : series -> series) (c : string) :
  in_columns c
    (mkDataFrame n
       (map (fun kv => (fst kv, f (snd kv)))
          (filter (fun kv => negb (String.eqb (fst kv) label))
             (kept_columns kept df))))
  = kept c && negb (String.eqb c label) && in_columns c df.
Proof using.
  rewrite !lookup_in_columns. cbn [cols].
  rewrite (lookup_map_values f).
  rewrite (lookup_filter_names (fun k => negb (String.eqb k label))).
  unfold kept_columns. rewrite (lookup_filter_names kept).
  destruct (kept c), (negb (String.eqb c label)), (lookup c (cols df));
    reflexivity.
Qed.

Lemma iloc_in_columns (X X' : DataFrame) (idx : list nat) (c : string) :
  iloc X idx = Ok X' -> in_columns c X' = in_columns c X.
Proof using.
  intros H. destruct (iloc_lookup X X' idx c H) as [_ E].
  rewrite !lookup_in_columns, E. now destruct (lookup c (cols X)).
Qed.

Lemma made_without_intro (kept : string -> bool) (label : string)
  (Xy : result (DataFrame * list float)) (df : DataFrame)
  (p : process RandomState) (test_size : Q) (seed : Z) (r : prepared)
  (X : DataFrame) (y : list float) :
  Xy = Ok (X, y) ->
  (forall c, in_columns c X
             = kept c && negb (String.eqb c label) && in_columns c df) ->
  split_and_prepare p X y test_size seed = Ok r ->
  made_without kept label Xy df p test_size seed r.
Proof.
  intros E C H.
  destruct (split_and_prepare_inv p X y test_size seed r H)
    as (X_train & X_test & st & T & F & T1 & T2).
  exists X, y, X_train, X_test, st.
  split; [exact E|]. split; [exact T|]. split; [exact F|].
  split; [exact T1|]. split; [exact T2|]. split; [exact C|].
  intros c K.
  assert (N : in_columns c X = false) by (rewrite C, K; reflexivity).
  destruct (train_test_split_inv p X y test_size seed _ _ _ _ T)
    as (n_train & n_test & _ & I1 & I2 & _).
  split; [now rewrite (iloc_in_columns _ _ _ c I1)|].
  split; [now rewrite (iloc_in_columns _ _ _ c I2)|].
  now apply selected_in_columns.
Qed.

Lemma college_made_without (p : process RandomState) (df : DataFrame)
  (test_size : Q) (seed : Z) (r : prepared) :
  college_train_test p df test_size seed = Ok r ->
  made_without college_kept college_label (college_X_y df) df p test_size
    seed r.
Proof.
  intros H. unfold college_train_test in H.
  destruct (in_columns college_outcome df) eqn:P.
  - destruct (getitem_present _ _ P) as [raw G].
    pose proof (college_X_y_normal df raw G) as E.
    rewrite E in H. cbn [bind fst snd] in H.
    apply (made_without_intro _ _ _ _ _ _ _ _ _ _ E); [|exact H].
    intros c. apply (in_columns_normal college_kept).
  - rewrite (college_X_y_missing df P) in H. discriminate.
Qed.

Lemma job_made_without (p : process RandomState) (df : DataFrame)
  (salary_col : string) (test_size : Q) (seed : Z) (r : prepared) :
  keeps_elements p ->
  job_train_test p df salary_col test_size seed = Ok r ->
  made_without (job_kept salary_col) job_label (job_X_y p df salary_col) df
    p test_size seed r.
Proof.
  intros K H. unfold job_train_test in H.
  destruct (in_columns salary_col df) eqn:P.
  - destruct (getitem_present _ _ P) as [raw G].
    pose proof (job_X_y_normal p df salary_col raw K G) as E.
    destruct (String.eqb salary_col job_label).
    + rewrite E in H. discriminate.
    + rewrite E in H. cbn [bind fst snd] in H.
      apply (made_without_intro _ _ _ _ _ _ _ _ _ _ E); [|exact H].
      intros c. apply (in_columns_normal (job_kept salary_col)).
  - rewrite (job_X_y_missing p df salary_col P) in H. discriminate.
Qed.

Lemma college_ignores_dropped (p : process RandomState) (df : DataFrame)
  (test_size : Q) (seed : Z) :
  ignores_dropped college_kept college_outcome college_X_y
    (fun d => college_train_test p d test_size seed) df.
Proof.
  intros df' raw raw' X y Hk G G' Hs E.
  rewrite (college_X_y_normal df raw G) in E. injection E as <- <-.
  exists (target_labels raw'). split.
  - rewrite (college_X_y_normal df' raw' G'). now rewrite Hk, Hs.
  - intros Hy. unfold college_train_test.
    rewrite (college_X_y_normal df' raw' G'), (college_X_y_normal df raw G).
    now rewrite Hk, Hs, Hy.
Qed.

Lemma job_ignores_dropped (p : process RandomState) (df : DataFrame)
  (salary_col : string) (test_size : Q) (seed : Z) :
  keeps_elements p ->
  ignores_dropped (job_kept salary_col) salary_col
    (fun d => job_X_y p d salary_col)
    (fun d => job_train_test p d salary_col test_size seed) df.
Proof.
  intros K df' raw raw' X y Hk G G' Hs E.
  pose proof (job_X_y_normal p df salary_col raw K G) as N.
  pose proof (job_X_y_normal p df' salary_col raw' K G') as N'.
  destruct (String.eqb salary_col job_label).
  - rewrite N in E. discriminate.
  - rewrite N in E. injection E as <- <-.
    exists (target_labels raw'). split.
    + rewrite N'. now rewrite Hk, Hs.
    + intros Hy. unfold job_train_test. rewrite N, N'.
      now rewrite Hk, Hs, Hy.
Qed.

(** C2. The outcome-defining column and the columns of the leakage list are
    absent from the feature matrices the orchestration returns.  The college
    list names its outcome column and the job rule names the salary column.
    Whenever [college_train_test] or [job_train_test] returns, the two
    matrices are the preprocessor's output on the partitions of a feature
    frame whose columns are exactly the input columns that are neither
    dropped nor the label, and no dropped name is a column of a partition or
    selected by the preprocessor.  The returned values do not depend on what
    the dropped columns hold: two input frames with the same kept columns,
    the outcome known on the same rows and the same labels give the same
    result.  A dropped name that is absent from the frame is not an error:
    the drop steps never raise, and the features are derived whenever the
    outcome column is there (and, in the job pipeline, is not named as the
    label is), whichever other dropped names the frame lacks. *)
Theorem leakage_columns_removed (p : process RandomState) (df : DataFrame)
  (salary_col : string) (test_size : Q) (seed : Z) :
  In college_outcome college_drop_cols
  /\ job_dropped_name salary_col salary_col = true
  /\ (forall r, college_train_test p df test_size seed = Ok r ->
        made_without college_kept college_label (college_X_y df) df p
          test_size seed r)
  /\ (keeps_elements p ->
      forall r, job_train_test p df salary_col test_size seed = Ok r ->
        made_without (job_kept salary_col) job_label
          (job_X_y p df salary_col) df p test_size seed r)
  /\ ignores_dropped college_kept college_outcome college_X_y
       (fun d => college_train_test p d test_size seed) df
  /\ (keeps_elements p ->
      ignores_dropped (job_kept salary_col) salary_col
        (fun d => job_X_y p d salary_col)
        (fun d => job_train_test p d salary_col test_size seed) df)
  /\ (forall L, succeeds (college_leakage_filter L) = true
                /\ succeeds (job_leakage_filter p salary_col L) = true)
  /\ (in_columns college_outcome df = true ->
      succeeds (college_X_y df) = true)
  /\ (keeps_elements p -> in_columns salary_col df = true ->
      String.eqb salary_col job_label = false ->
      succeeds (job_X_y p df salary_col) = true).
Proof.
  split; [apply mem_In; reflexivity|].
  split; [unfold job_dropped_name; now rewrite String.eqb_refl|].
  split; [intros r; apply college_made_without|].
  split; [intros K r; now apply job_made_without|].
  split; [apply college_ignores_dropped|].
  split; [intros K; now apply job_ignores_dropped|].
  split; [intros L; split; reflexivity|].
  split.
  - intros P. destruct (getitem_present _ _ P) as [raw G].
    now rewrite (college_X_y_normal df raw G).
  - intros K P N. destruct (getitem_present _ _ P) as [raw G].
    rewrite (job_X_y_normal p df salary_col raw K G). now rewrite N.
Qed.

End Pipelines.


(** ** The theorems at the sample frames *)

(** The pipelines in the sample environment. *)
Definition sample_college_train_test :=
  college_train_test sample_parse_float sample_sqrt Z (fun s => s) sample_indices.

Definition sample_job_train_test :=
  job_train_test sample_parse_float sample_sqrt Z (fun s => s) sample_indices.

Lemma sample_process_keeps : keeps_elements Z sample_process.
Proof. intros l x. apply nodup_In. Qed.

Lemma reversed_process_keeps : keeps_elements Z reversed_process.
Proof.
  intros l x. unfold reversed_process. cbn [set_order].
  rewrite <- in_rev. apply nodup_In.
Qed.

Lemma college_sample_runs :
  sample_college_train_test sample_process college_sample (1#2) 42%Z
  = Ok college_sample_result.
Proof. vm_compute. reflexivity. Qed.


(** C2 on [college_sample], and on [college_sample_reidentified], which
    differs from it in the dropped columns only. *)
Lemma leakage_columns_removed_witness :
  made_without sample_sqrt Z (fun s => s) sample_indices college_kept
    college_label (college_X_y sample_parse_float college_sample)
    college_sample sample_process (1#2) 42%Z college_sample_result
  /\ sample_college_train_test sample_process college_sample_reidentified
       (1#2) 42%Z
     = sample_college_train_test sample_process college_sample (1#2) 42%Z.
Proof.
  pose proof (leakage_columns_removed sample_parse_float sample_sqrt Z
                (fun s => s) sample_indices sample_process college_sample
                "salary" (1#2) 42%Z) as (_ & _ & M & _ & I & _ & _ & _ & _).
  split; [exact (M college_sample_result college_sample_runs)|].
  destruct (I college_sample_reidentified
              (Object [Some "30"; Some "50"; Some "n/a";
                       Some "50"; Some "70"; Some "90"])
              (Numeric [Some 31; Some 51; None; Some 51; Some 71; Some 91]%Q)
              (mkDataFrame 5
                 [ ("control", Object [Some "Public"; Some "Private";
                                       Some "Public"; Some "Public";
                                       Some "Private"]);
                   ("student_count",
                    Numeric [Some 10; Some 20; Some 40; Some 50; Some 60]%Q) ])
              [Some 0; Some 0; Some 0; Some 1; Some 1]%Q
              eq_refl eq_refl eq_refl eq_refl eq_refl) as [y' [E H]].
  apply H. vm_compute in E. now injection E.
Defined.


(** C3 on a frame that has neither [salary] nor [grad_150_value]. *)
Lemma missing_outcome_errors_witness :
  sample_job_train_test sample_process college_without_outcome "salary" (1#5) 42%Z
  = Raise (ValueError (job_missing_column "salary"))
  /\ mentions (job_missing_column "salary") "salary"
  /\ sample_college_train_test sample_process college_without_outcome (1#5) 42%Z
     = Raise (KeyError college_outcome)
  /\ is_AttributeError (KeyError college_outcome) = false.
Proof.
  exact (missing_outcome_errors sample_parse_float sample_sqrt Z (fun s => s)
           sample_indices sample_process college_without_outcome "salary"
           (1#5) 42%Z eq_refl eq_refl).
Defined.

(** C3 as stated fails: without [grad_150_value] the college pipeline
    raises an exception that is not an AttributeError. *)
Lemma college_missing_outcome_not_AttributeError :
  exists e,
    sample_college_train_test sample_process college_without_outcome (1#5) 42%Z
    = Raise e
    /\ is_AttributeError e = false /\ is_KeyError e = true.
Proof. exists (KeyError "grad_150_value"). vm_compute. auto. Qed.


(** C6: a constant column. *)
Lemma zero_std_scales_by_one_witness :
  scale_ (scaler_fit sample_sqrt [3; 3; 3]%Q) = 1%Q.
Proof.
  refine (proj1 (zero_std_scales_by_one sample_sqrt [3; 3; 3]%Q _)).
  vm_compute. reflexivity.
Defined.

(** C7: two processes that iterate sets in opposite orders and hold
    different generator states. *)
Lemma same_inputs_same_outputs_witness :
  sample_college_train_test sample_process college_sample (1#2) 42%Z
  = sample_college_train_test reversed_process college_sample (1#2) 42%Z
  /\ sample_job_train_test sample_process job_sample "salary" (1#2) 42%Z
     = sample_job_train_test reversed_process job_sample "salary" (1#2) 42%Z.
Proof.
  split.
  - exact (proj1 (same_inputs_same_outputs sample_parse_float sample_sqrt Z
                    (fun s => s) sample_indices sample_process reversed_process
                    college_sample "salary" (1#2) 42%Z
                    sample_process_keeps reversed_process_keeps)).
  - exact (proj2 (same_inputs_same_outputs sample_parse_float sample_sqrt Z
                    (fun s => s) sample_indices sample_process reversed_process
                    job_sample "salary" (1#2) 42%Z
                    sample_process_keeps reversed_process_keeps)).
Defined.

(** C8 as stated fails: on [college_constant] every label is 0, a single
    class, and the pipeline returns its four outputs. *)
Lemma single_class_is_split :
  exists X y r,
    college_X_y sample_parse_float college_constant = Ok (X, y)
    /\ y = [Some 0; Some 0; Some 0; Some 0]%Q
    /\ length (unique y) = 1
    /\ sample_college_train_test sample_process college_constant (1#2) 42%Z
       = Ok r.
Proof.
  eexists. eexists. eexists.
  split; [vm_compute; reflexivity|].
  split; [reflexivity|]. split; [reflexivity|].
  vm_compute. reflexivity.
Qed.

(** C8 (amended) on [college_skewed]: the labels are 0, 0, 0, 1 and the
    class of 1 has a single member. *)
Lemma single_member_class_rejected_witness :
  exists msg,
    sample_college_train_test sample_process college_skewed (1#2) 42%Z
    = Raise (ValueError msg).
Proof.
  refine (proj1 (single_member_class_rejected sample_parse_float sample_sqrt Z
                   (fun s => s) sample_indices sample_process college_skewed
                   "salary" (1#2) 42%Z) _ [Some 0; Some 0; Some 0; Some 1]%Q _ _).
  - vm_compute. reflexivity.
  - reflexivity.
Defined.

(** C9 on [college_sample]. *)
Lemma train_and_test_same_width_witness :
  one_schema sample_sqrt college_sample_result.
Proof.
  exact (proj1 (train_and_test_same_width sample_parse_float sample_sqrt Z
                  (fun s => s) sample_indices sample_process college_sample
                  "salary" (1#2) 42%Z)
           college_sample_result college_sample_runs).
Defined.

(** C10 on [job_sample]: [Status] is dropped, [placement_status] stays. *)
Lemma job_dynamic_drop_exact_witness :
  exists X y,
    job_X_y sample_parse_float Z sample_process job_sample "salary" = Ok (X, y)
    /\ in_columns "Status" X = false
    /\ (in_columns "placement_status" X
        = negb (mem (lower "placement_status") placement_words)
        /\ (mem (lower "placement_status") placement_words = true
            <-> lower "placement_status" = "status"
                \/ lower "placement_status" = "placed")
        /\ mem (lower "placement_status") placement_words = false).
Proof.
  eexists. eexists. split; [vm_compute; reflexivity|].
  split; [reflexivity|].
  refine (job_dynamic_drop_exact sample_parse_float Z sample_process job_sample
            "salary" _ _ "placement_status" sample_process_keeps _ _ _ _);
    vm_compute; reflexivity.
Defined.

(** ** The further properties at the sample frames *)

(** X1 on [college_sample]. *)
Lemma features_exclude_label_witness :
  exists X y,
    college_X_y sample_parse_float college_sample = Ok (X, y)
    /\ in_columns college_label X = false /\ n_rows X = length y.
Proof.
  eexists. eexists. split; [vm_compute; reflexivity|].
  refine (proj1 (features_exclude_label sample_parse_float Z sample_process
                   college_sample "salary") _ _ _).
  vm_compute. reflexivity.
Defined.

(** X2 on [college_sample]: [control] keeps its cells but for the third
    row, whose outcome is not a number. *)
Lemma features_keep_other_columns_witness :
  exists X y,
    college_X_y sample_parse_float college_sample = Ok (X, y)
    /\ getitem X "control"
       = Ok (Object [Some "Public"; Some "Private";
                     Some "Public"; Some "Public"; Some "Private"]).
Proof.
  eexists. eexists. split; [vm_compute; reflexivity|].
  refine (proj1 (features_keep_other_columns sample_parse_float Z sample_process
                   college_sample "salary" "control" _ eq_refl)
            _ _ _ _ eq_refl eq_refl eq_refl).
  vm_compute. reflexivity.
Defined.

(** X3 on [job_salary_as_label]. *)
Lemma job_salary_named_as_label_witness :
  sample_job_train_test sample_process job_salary_as_label job_label (1#2) 42%Z
  = Raise (KeyError job_label).
Proof.
  exact (job_salary_named_as_label sample_parse_float sample_sqrt Z (fun s => s)
           sample_indices sample_process job_salary_as_label (1#2) 42%Z
           sample_process_keeps eq_refl).
Defined.

(** X4 on [college_sample] with [test_size = 3/2]. *)
Lemma test_size_out_of_range_witness :
  exists msg,
    sample_college_train_test sample_process college_sample (3#2) 42%Z
    = Raise (ValueError msg).
Proof.
  refine (proj1 (test_size_out_of_range sample_parse_float sample_sqrt Z
                   (fun s => s) sample_indices sample_process college_sample
                   "salary" (3#2) 42%Z _) _ _ _).
  - right. vm_compute. discriminate.
  - vm_compute. reflexivity.
Defined.

(** X5 on [college_unknown_outcomes]. *)
Lemma no_known_outcome_rejected_witness :
  exists msg,
    sample_college_train_test sample_process college_unknown_outcomes (1#2) 42%Z
    = Raise (ValueError msg).
Proof.
  refine (proj2 (proj2 (proj1 (no_known_outcome_rejected sample_parse_float
                                 sample_sqrt Z (fun s => s) sample_indices
                                 sample_process college_unknown_outcomes
                                 "salary" (1#2) 42%Z)
                          _ eq_refl eq_refl))).
Defined.

(** X6 on [college_sample]: two labels out of five are 1. *)
Lemma at_most_half_labelled_one_witness :
  exists X y,
    college_X_y sample_parse_float college_sample = Ok (X, y)
    /\ count_label 1 y = 2 /\ length y = 5
    /\ 2 * count_label 1 y <= length y
    /\ (1 <= length y -> 1 <= count_label 0 y).
Proof.
  eexists. eexists. split; [vm_compute; reflexivity|].
  split; [reflexivity|]. split; [reflexivity|].
  refine (proj1 (at_most_half_labelled_one sample_parse_float Z sample_process
                   college_sample "salary") _ _ _).
  vm_compute. reflexivity.
Defined.

Lemma college_sample_columns : NoDup (columns college_sample).
Proof.
  change (columns college_sample)
    with (nodup string_dec (columns college_sample)).
  apply NoDup_nodup.
Qed.

(** X7 on [college_sample]: [control] is text, [student_count] numeric. *)
Lemma type_router_partitions_witness :
  (mem "control" (num_cols college_sample) = false
   /\ mem "control" (cat_cols college_sample) = true)
  /\ (mem "student_count" (num_cols college_sample) = true
      /\ mem "student_count" (cat_cols college_sample) = false).
Proof.
  split.
  - exact (proj1 (type_router_partitions college_sample college_sample_columns)
             "control" _ eq_refl).
  - exact (proj1 (type_router_partitions college_sample college_sample_columns)
             "student_count" _ eq_refl).
Defined.

(** X8 on [college_sample]. *)
Lemma outputs_aligned_and_finite_witness :
  length (X_train_prep college_sample_result)
  = length (y_train college_sample_result)
  /\ length (X_test_prep college_sample_result)
     = length (y_test college_sample_result)
  /\ all_finite (X_train_prep college_sample_result)
  /\ all_finite (X_test_prep college_sample_result).
Proof.
  exact (proj1 (outputs_aligned_and_finite sample_parse_float sample_sqrt Z
                  (fun s => s) sample_indices sample_process college_sample
                  "salary" (1#2) 42%Z)
           college_sample_result college_sample_runs).
Defined.

(** X9: the categories of a column and the row of one of its values. *)
Lemma fitted_value_is_one_hot_witness :
  categories ["Public"; "Private"; "Public"] = ["Private"; "Public"]
  /\ onehot_cell unknown_ignore (categories ["Public"; "Private"; "Public"])
       "Public"
     = Ok [Some 0%Q; Some 1%Q]
  /\ count_label 1
       (indicator (categories ["Public"; "Private"; "Public"]) "Public") = 1.
Proof.
  split; [reflexivity|].
  pose proof (fitted_value_is_one_hot unknown_ignore
                ["Public"; "Private"; "Public"] "Public"
                (or_introl eq_refl)) as H.
  exact (conj (proj1 (proj2 (proj2 (proj2 H))))
              (proj1 (proj2 (proj2 (proj2 (proj2 H)))))).
Defined.


(** X10 on a column where two values tie: the first in the order of text
    is the imputation value. *)
Lemma most_frequent_is_a_mode_witness :
  most_frequent [Some "b"; None; Some "a"; Some "b"; Some "a"; Some "c"]
  = Some "a"
  /\ match most_frequent [Some "b"; None; Some "a"; Some "b"; Some "a"; Some "c"] with
     | None => True
     | Some b => In (Some b) [Some "b"; None; Some "a"; Some "b"; Some "a"; Some "c"]
     end.
Proof.
  split; [reflexivity|].
  pose proof (most_frequent_is_a_mode
                [Some "b"; None; Some "a"; Some "b"; Some "a"; Some "c"]) as H.
  destruct (most_frequent _); [exact (proj1 H) | exact I].
Defined.

(** X11 on the column 0, 4: the scaled values are -1 and 1. *)
Lemma standardised_train_column_sums_to_zero_witness :
  (Qsum (observed (scaler_transform (scaler_fit sample_sqrt [0; 4]%Q) [0; 4]%Q))
   == 0)%Q.
Proof.
  exact (proj2 (standardised_train_column_sums_to_zero sample_sqrt [0; 4]%Q)).
Defined.

(** X13 on [college_sample] with [test_size = 1/5]: five labelled rows of
    two classes, one test row requested. *)
Lemma two_classes_need_two_test_rows_witness :
  exists msg,
    sample_college_train_test sample_process college_sample (1#5) 42%Z
    = Raise (ValueError msg).
Proof.
  refine (proj1 (two_classes_need_two_test_rows sample_parse_float sample_sqrt Z
                   (fun s => s) sample_indices sample_process college_sample
                   "salary" (1#5) 42%Z) _ _ _ _ _).
  - vm_compute. reflexivity.
  - vm_compute. lia.
  - vm_compute. lia.
Defined.
